(** * A Chord ring participant: [node.py]

    Shallow embedding of the [ChordNode] class: identifier derivation
    (SHA-1 of ["ip:port"]), the ring state (successor, predecessor), the
    join sequence, [find_successor] routing, the request dispatcher and
    the local key-value store.

    Conventions.
    - A Python [str] is a Rocq [string] holding its UTF-8 bytes. A
      lone surrogate, which [json.loads] lets through from an escape
      such as ["\ud800"], is written as the three bytes ED, A0..BF,
      80..BF that strict UTF-8 refuses; [s.encode()] is the list of
      bytes of a string without one, and raises on one that has one.
      The host a node is started on is the text the operator typed.
    - A decoded JSON document is a [value]. A Python [float] is the
      IEEE 754 datum it holds; how Python prints one is left to the
      environment, as is how it prints containers.
    - A method of [ChordNode] is a computation in the monad [M]: it takes
      the node, and yields an outcome (a returned value or a raised
      exception) together with the node as the method left it.
    - [send_request] is the node's only window on the network; what a
      round trip comes to is a parameter [net] of every method that
      reaches it.
    - Console output ([print]) is not modelled. *)

From stdpp Require Import gmap strings list.
From Stdlib Require Import ZArith DecimalString Strings.Byte Ascii.
From Stdlib Require Import Floats.SpecFloat.
From Stdlib Require DecimalZ DecimalPos.
Import ListNotations.

Set Warnings "-register-all".
Local Open Scope Z_scope.

(** ** Python values and the built-in behaviours the node relies on *)

Inductive value :=
| VNone
| VBool (b : bool)
| VInt (z : Z)
| VFloat (f : spec_float)
| VStr (s : string)
| VList (l : list value)
| VDict (d : gmap string value).

Inductive exn :=
| AttributeError
| KeyError
| TypeError
| ValueError
| UnicodeEncodeError.

Inductive outcome (A : Type) :=
| Returns (a : A)
| Raises (e : exn).
Arguments Returns {A} a.
Arguments Raises {A} e.

Definition obind {A B : Type} (o : outcome A) (k : A -> outcome B)
    : outcome B :=
  match o with
  | Returns a => k a
  | Raises e => Raises e
  end.

(** Truth value of an object, as tested by [if x and y:]. *)
Definition truthy (v : value) : bool :=
  match v with
  | VNone => false
  | VBool b => b
  | VInt z => negb (z =? 0)
  | VFloat f => match f with S754_zero _ => false | _ => true end
  | VStr s => negb (String.eqb s "")
  | VList l => match l with [] => false | _ => true end
  | VDict d => negb (bool_decide (d = ∅))
  end.

(** [v == "literal"]: only a [str] equals a [str]. *)
Definition eq_str (v : value) (s : string) : bool :=
  match v with
  | VStr s' => String.eqb s' s
  | _ => false
  end.

(** A number as the comparison operators see it: not a number, an
    infinity, or the dyadic rational [m * 2 ^ e]. Python compares an
    [int] with a [float] by their exact values. *)
Inductive number :=
| NaN
| Inf (negative : bool)
| Dyadic (m e : Z).

Definition number_of_float (f : spec_float) : number :=
  match f with
  | S754_zero _ => Dyadic 0 0
  | S754_infinity s => Inf s
  | S754_nan => NaN
  | S754_finite s m e => Dyadic (if s then Z.neg m else Z.pos m) e
  end.

(** The number a value stands for in numeric comparisons; [bool] is a
    subclass of [int]. *)
Definition as_number (v : value) : option number :=
  match v with
  | VInt z => Some (Dyadic z 0)
  | VBool b => Some (Dyadic (if b then 1 else 0) 0)
  | VFloat f => Some (number_of_float f)
  | _ => None
  end.

(** No order holds between a NaN and anything. *)
Definition compare_numbers (a b : number) : option comparison :=
  match a, b with
  | NaN, _ | _, NaN => None
  | Inf s1, Inf s2 =>
      Some (match s1, s2 with
            | true, false => Lt
            | false, true => Gt
            | _, _ => Eq
            end)
  | Inf s, Dyadic _ _ => Some (if s then Lt else Gt)
  | Dyadic _ _, Inf s => Some (if s then Gt else Lt)
  | Dyadic m1 e1, Dyadic m2 e2 =>
      let e := Z.min e1 e2 in
      Some (Z.compare (m1 * 2 ^ (e1 - e)) (m2 * 2 ^ (e2 - e)))
  end.

Definition num_eq (a b : number) : bool :=
  match compare_numbers a b with Some Eq => true | _ => false end.
Definition num_lt (a b : number) : bool :=
  match compare_numbers a b with Some Lt => true | _ => false end.
Definition num_le (a b : number) : bool :=
  match compare_numbers a b with Some (Lt | Eq) => true | _ => false end.

(** [v == n] for an [int] n; equality never raises. *)
Definition eq_int (v : value) (n : Z) : bool :=
  match as_number v with
  | Some m => num_eq m (Dyadic n 0)
  | None => false
  end.

(** [v[k]] for a [str] subscript k. *)
Definition subscript (v : value) (k : string) : outcome value :=
  match v with
  | VDict d => match d !! k with
               | Some x => Returns x
               | None => Raises KeyError
               end
  | _ => Raises TypeError
  end.

(** [v.get(k)]: only a [dict] has the method. *)
Definition dict_get (v : value) (k : string) : outcome value :=
  match v with
  | VDict d => Returns (default VNone (d !! k))
  | _ => Raises AttributeError
  end.

(** Whether a code point in U+D800..U+DFFF is written in the bytes:
    its first byte is ED and its second one is A0 or above (in the
    encoding of any other code point ED is followed by 80..9F). *)
Fixpoint has_surrogate (bs : list byte) : bool :=
  match bs with
  | b0 :: rest =>
      match rest with
      | b1 :: _ =>
          (N.eqb (Byte.to_N b0) 237 && N.leb 160 (Byte.to_N b1))
          || has_surrogate rest
      | [] => false
      end
  | [] => false
  end.

(** The strings ['utf-8'] can encode. *)
Definition encodable (s : string) : bool :=
  negb (has_surrogate (String.list_byte_of_string s)).

(** [v.encode()]: only a [str] has the method, and the codec refuses
    surrogates. *)
Definition encode (v : value) : outcome (list byte) :=
  match v with
  | VStr s =>
      if encodable s then Returns (String.list_byte_of_string s)
      else Raises UnicodeEncodeError
  | _ => Raises AttributeError
  end.

(** [str(n)] for an [int]. *)
Definition str_of_int (n : Z) : string :=
  NilZero.string_of_int (Z.to_int n).

(** ** hashlib.sha1 (FIPS 180-4, section 6.1) *)

Module SHA1.

Definition w32 (x : Z) : Z := x mod 2 ^ 32.
Definition add32 (x y : Z) : Z := w32 (x + y).
Definition rotl (n x : Z) : Z :=
  w32 (Z.lor (Z.shiftl x n) (Z.shiftr x (32 - n))).
Definition not32 (x : Z) : Z := Z.lxor x 0xFFFFFFFF.

Definition octet (b : byte) : Z := Z.of_N (Byte.to_N b).
Definition byte_of_Z (z : Z) : byte :=
  default x00 (Byte.of_N (Z.to_N (z mod 256))).

(** Big-endian reading and writing of byte strings. *)
Definition be_step (acc : Z) (b : byte) : Z := acc * 256 + octet b.
Definition be_int (bs : list byte) : Z := fold_left be_step bs 0.

Fixpoint be_bytes (n : nat) (z : Z) : list byte :=
  match n with
  | O => []
  | S n' => be_bytes n' (z / 256) ++ [byte_of_Z z]
  end.

(** Padding: a one bit, zeros up to 56 mod 64 bytes, the bit length. *)
Definition pad (msg : list byte) : list byte :=
  let l := Z.of_nat (List.length msg) in
  let k := (55 - l) mod 64 in
  msg ++ [x80] ++ repeat x00 (Z.to_nat k) ++ be_bytes 8 (8 * l).

Fixpoint words (fuel : nat) (bs : list byte) : list Z :=
  match fuel, bs with
  | S f, b0 :: b1 :: b2 :: b3 :: rest =>
      be_int [b0; b1; b2; b3] :: words f rest
  | _, _ => []
  end.

Fixpoint blocks (fuel : nat) (ws : list Z) : list (list Z) :=
  match fuel, ws with
  | S f, _ :: _ => take 16 ws :: blocks f (drop 16 ws)
  | _, _ => []
  end.

(** Message schedule: sixteen block words extended to eighty. *)
Fixpoint schedule (n : nat) (W : list Z) : list Z :=
  match n with
  | O => W
  | S n' =>
      let t := List.length W in
      let x := Z.lxor (Z.lxor (nth (t - 3) W 0) (nth (t - 8) W 0))
                      (Z.lxor (nth (t - 14) W 0) (nth (t - 16) W 0)) in
      schedule n' (W ++ [rotl 1 x])
  end.

Definition f (t : nat) (b c d : Z) : Z :=
  if (t <? 20)%nat then Z.lor (Z.land b c) (Z.land (not32 b) d)
  else if (t <? 40)%nat then Z.lxor (Z.lxor b c) d
  else if (t <? 60)%nat then
    Z.lor (Z.lor (Z.land b c) (Z.land b d)) (Z.land c d)
  else Z.lxor (Z.lxor b c) d.

Definition K (t : nat) : Z :=
  if (t <? 20)%nat then 0x5A827999
  else if (t <? 40)%nat then 0x6ED9EBA1
  else if (t <? 60)%nat then 0x8F1BBCDC
  else 0xCA62C1D6.

Definition state : Type := Z * Z * Z * Z * Z.

Definition round (s : state) (tw : nat * Z) : state :=
  let '(a, b, c, d, e) := s in
  let '(t, wt) := tw in
  let temp :=
    add32 (add32 (add32 (add32 (rotl 5 a) (f t b c d)) e) (K t)) wt in
  (temp, a, rotl 30 b, c, d).

Definition compress (h : state) (block : list Z) : state :=
  let W := schedule 64 block in
  let '(a, b, c, d, e) := fold_left round (combine (seq 0 80) W) h in
  let '(h0, h1, h2, h3, h4) := h in
  (add32 h0 a, add32 h1 b, add32 h2 c, add32 h3 d, add32 h4 e).

Definition H0 : state :=
  (0x67452301, 0xEFCDAB89, 0x98BADCFE, 0x10325476, 0xC3D2E1F0).

Definition serialize (h : state) : list byte :=
  let '(h0, h1, h2, h3, h4) := h in
  be_bytes 4 h0 ++ be_bytes 4 h1 ++ be_bytes 4 h2
    ++ be_bytes 4 h3 ++ be_bytes 4 h4.

(** [hashlib.sha1(msg).digest()] *)
Definition digest (msg : list byte) : list byte :=
  let p := pad msg in
  let ws := words (List.length p) p in
  serialize (fold_left compress (blocks (List.length ws) ws) H0).

Definition hex_char (n : Z) : ascii :=
  ascii_of_N (Z.to_N (if n <? 10 then 48 + n else 87 + n)).

(** [hashlib.sha1(msg).hexdigest()], given the digest: two lower-case
    hexadecimal digits a byte. *)
Fixpoint hexdigest (d : list byte) : string :=
  match d with
  | [] => EmptyString
  | b :: d' =>
      String (hex_char (octet b / 16))
        (String (hex_char (octet b mod 16)) (hexdigest d'))
  end.

End SHA1.

(** [int(s, 16)] on a string of hexadecimal digits; anything else is
    answered with [ValueError] (the prefixes, signs and separators that
    Python also reads do not occur in a hexdigest). *)
Definition hex_value (c : ascii) : option Z :=
  let n := Z.of_N (N_of_ascii c) in
  if (48 <=? n) && (n <=? 57) then Some (n - 48)
  else if (97 <=? n) && (n <=? 102) then Some (n - 87)
  else if (65 <=? n) && (n <=? 70) then Some (n - 55)
  else None.

Fixpoint int16_from (acc : Z) (s : string) : outcome Z :=
  match s with
  | EmptyString => Returns acc
  | String c s' =>
      match hex_value c with
      | Some d => int16_from (acc * 16 + d) s'
      | None => Raises ValueError
      end
  end.

Definition int16 (s : string) : outcome Z :=
  match s with
  | EmptyString => Raises ValueError
  | _ => int16_from 0 s
  end.

(** [int(hashlib.sha1(b).hexdigest(), 16) % (2**160)] *)
Definition sha1_id (b : list byte) : outcome Z :=
  obind (int16 (SHA1.hexdigest (SHA1.digest b)))
        (fun n => Returns (n mod 2 ^ 160)).

(** ** The node *)

(** The attributes of a [ChordNode] object. [successor] is [None] while
    the attribute has not been assigned; [predecessor] starts as the
    Python value [None]. *)
Record ChordNode := {
  ip : string;
  port : Z;
  node_id : Z;
  data_store : gmap Z value;
  predecessor : value;
  successor : option value
}.

Definition set_data_store (f : gmap Z value -> gmap Z value)
    (self : ChordNode) : ChordNode :=
  {| ip := ip self; port := port self; node_id := node_id self;
     data_store := f (data_store self);
     predecessor := predecessor self; successor := successor self |}.

Definition set_predecessor (v : value) (self : ChordNode) : ChordNode :=
  {| ip := ip self; port := port self; node_id := node_id self;
     data_store := data_store self;
     predecessor := v; successor := successor self |}.

Definition set_successor (v : value) (self : ChordNode) : ChordNode :=
  {| ip := ip self; port := port self; node_id := node_id self;
     data_store := data_store self;
     predecessor := predecessor self; successor := Some v |}.

(** Methods: state passing with exceptions. A raised exception keeps
    the assignments made before it. *)
Definition M (A : Type) : Type := ChordNode -> outcome A * ChordNode.

Definition ret {A : Type} (a : A) : M A := fun self => (Returns a, self).
Definition raise {A : Type} (e : exn) : M A := fun self => (Raises e, self).
Definition bind {A B : Type} (m : M A) (k : A -> M B) : M B :=
  fun self =>
    match m self with
    | (Returns a, self') => k a self'
    | (Raises e, self') => (Raises e, self')
    end.
Definition lift {A : Type} (o : outcome A) : M A := fun self => (o, self).
Definition attr {A : Type} (field : ChordNode -> A) : M A :=
  fun self => (Returns (field self), self).
Definition assign (upd : ChordNode -> ChordNode) : M unit :=
  fun self => (Returns tt, upd self).
(** [try: body except Exception: pass] *)
Definition try_except (body : M unit) : M unit :=
  fun self => (Returns tt, snd (body self)).

Declare Scope py_scope.
Delimit Scope py_scope with py.
Notation "x <- m ;; k" := (bind m (fun x => k))
  (at level 100, m at next level, right associativity) : py_scope.
Notation "m ;; k" := (bind m (fun _ => k))
  (at level 100, right associativity) : py_scope.
Local Open Scope py_scope.

(** What the socket calls and [json.loads] of one round trip to
    [(ip, port)] come to: the decoded response, or the text of the
    exception raised on the way. A peer that never answers (the sockets
    have no timeout) is not modelled. *)
Definition network : Type := value -> value -> value -> string + value.

(** [send_request(ip, port, request)]: every exception is caught and
    turned into an error response, so the caller always gets a value
    back. *)
Definition send_request (net : network) (ip port request : value) : value :=
  match net ip port request with
  | inr response => response
  | inl message => VDict {[ "status" := VStr "error";
                            "message" := VStr message ]}
  end.

(** What arrives on an accepted connection: nothing, bytes that do not
    decode as JSON, or a decoded request. *)
Inductive received :=
| NoData
| Undecodable
| Decoded (request : value).

Definition descriptor (nid : value) (nip nport : value) : value :=
  VDict {[ "node_id" := nid; "ip" := nip; "port" := nport ]}.

Definition self_descriptor (self : ChordNode) : value :=
  descriptor (VInt (node_id self)) (VStr (ip self)) (VInt (port self)).

(** [generate_id(ip, port)] *)
Definition generate_id (ip : string) (port : Z) : outcome Z :=
  let node_str :=
    String.list_byte_of_string (ip +:+ ":" +:+ str_of_int port) in
  sha1_id node_str.

(** [int(hashlib.sha1(key.encode()).hexdigest(), 16) % (2**160)], the
    first line of [insert], [query] and [delete]. *)
Definition hashed_key (key : value) : outcome Z :=
  obind (encode key) sha1_id.

Section Node.

(** Python's [repr] of floats, lists and dicts, which the f-strings
    fall back on when one is interpolated. It prints a float by its
    shortest round-tripping decimal and quotes the strings inside a
    container by rules that depend on the Unicode character database;
    both are left to the environment. *)
Variable py_repr : value -> string.

(** [f"{v}"] *)
Definition py_str (v : value) : string :=
  match v with
  | VNone => "None"
  | VBool true => "True"
  | VBool false => "False"
  | VInt z => str_of_int z
  | VStr s => s
  | VFloat _ | VList _ | VDict _ => py_repr v
  end.

Definition insert (key val : value) : M value :=
  hk <- lift (hashed_key key) ;;
  assign (set_data_store <[hk := val]>) ;;
  ret (VDict {[ "status" := VStr "success";
                "message" := VStr ("Inserted " +:+ py_str key +:+ " -> "
                                     +:+ py_str val) ]}).

Definition query (key : value) : M value :=
  hk <- lift (hashed_key key) ;;
  store <- attr data_store ;;
  match store !! hk with
  | Some v => ret (VDict {[ "status" := VStr "success"; "value" := v ]})
  | None => ret (VDict {[ "status" := VStr "error";
                          "message" := VStr "Key not found" ]})
  end.

Definition delete (key : value) : M value :=
  hk <- lift (hashed_key key) ;;
  store <- attr data_store ;;
  match store !! hk with
  | Some _ =>
      assign (set_data_store (base.delete hk)) ;;
      ret (VDict {[ "status" := VStr "success";
                    "message" := VStr ("Deleted " +:+ py_str key) ]})
  | None => ret (VDict {[ "status" := VStr "error";
                          "message" := VStr "Key not found" ]})
  end.

Definition update_predecessor (nid pip pport : value) : M value :=
  assign (set_predecessor (descriptor nid pip pport)) ;;
  ret (VDict {[ "status" := VStr "success";
                "message" := VStr "Predecessor updated" ]}).

(** [self.successor], an [AttributeError] while it is unassigned. *)
Definition get_successor : M value :=
  fun self =>
    match successor self with
    | Some s => (Returns s, self)
    | None => (Raises AttributeError, self)
    end.

Definition find_successor (net : network) (target : value)
    : M value :=
  succ <- get_successor ;;
  sid <- lift (subscript succ "node_id") ;;
  self_id <- attr node_id ;;
  if eq_int sid self_id then
    ret (VDict {[ "status" := VStr "success"; "successor" := succ ]})
  else
    let forward :=
      let forward_request :=
        VDict {[ "command" := VStr "find_successor";
                 "node_id" := target ]} in
      sip <- lift (subscript succ "ip") ;;
      sport <- lift (subscript succ "port") ;;
      ret (send_request net sip sport forward_request) in
    (* self.node_id < node_id <= self.successor["node_id"]: the second
       comparison is evaluated only when the first one holds *)
    match as_number target with
    | None => raise TypeError
    | Some t =>
        if num_lt (Dyadic self_id 0) t then
          match as_number sid with
          | None => raise TypeError
          | Some s =>
              if num_le t s then
                ret (VDict {[ "status" := VStr "success";
                              "successor" := succ ]})
              else forward
          end
        else forward
    end.

Definition join (net : network)
    (bootstrap_ip bootstrap_port : value) : M unit :=
  try_except (
    self_id <- attr node_id ;;
    let request := VDict {[ "command" := VStr "find_successor";
                            "node_id" := VInt self_id ]} in
    let successor_response :=
      send_request net bootstrap_ip bootstrap_port request in
    status <- lift (subscript successor_response "status") ;;
    if eq_str status "success" then
      succ <- lift (subscript successor_response "successor") ;;
      assign (set_successor succ) ;;
      self_ip <- attr ip ;;
      self_port <- attr port ;;
      let update_predecessor_request :=
        VDict {[ "command" := VStr "update_predecessor";
                 "node_id" := VInt self_id;
                 "ip" := VStr self_ip;
                 "port" := VInt self_port ]} in
      sip <- lift (subscript succ "ip") ;;
      sport <- lift (subscript succ "port") ;;
      let update_response :=
        send_request net sip sport update_predecessor_request in
      ret tt
    else
      (* the error line interpolates successor_response['message'] *)
      lift (subscript successor_response "message") ;;
      ret tt).

(** [__init__] up to the point where the server thread is started. *)
Definition init (net : network) (ip : string) (port : Z)
    (bootstrap_ip bootstrap_port : value) : outcome ChordNode :=
  obind (generate_id ip port) (fun nid =>
    let self := {| ip := ip; port := port; node_id := nid;
                   data_store := ∅; predecessor := VNone;
                   successor := None |} in
    if truthy bootstrap_ip && truthy bootstrap_port then
      Returns (snd (join net bootstrap_ip bootstrap_port self))
    else
      Returns (set_successor
                 (descriptor (VInt nid) (VStr ip) (VInt port)) self)).

Definition process_request (net : network) (request : value)
    : M value :=
  command <- lift (dict_get request "command") ;;
  key <- lift (dict_get request "key") ;;
  val <- lift (dict_get request "value") ;;
  nid <- lift (dict_get request "node_id") ;;
  if eq_str command "insert" then insert key val
  else if eq_str command "query" then query key
  else if eq_str command "delete" then delete key
  else if eq_str command "find_successor" then find_successor net nid
  else if eq_str command "update_predecessor" then
    rip <- lift (subscript request "ip") ;;
    rport <- lift (subscript request "port") ;;
    update_predecessor nid rip rport
  else
    ret (VDict {[ "status" := VStr "error";
                  "message" := VStr ("Invalid command received: "
                                       +:+ py_str command) ]}).

(** [handle_request(conn)]: the response written to the connection, if
    any, and the node afterwards. An exception in the handler is
    logged and the connection is closed without a response. *)
Definition handle_request (net : network) (rx : received)
    (self : ChordNode) : option value * ChordNode :=
  match rx with
  | NoData => (None, self)
  | Undecodable => (None, self)
  | Decoded request =>
      match process_request net request self with
      | (Returns response, self') => (Some response, self')
      | (Raises _, self') => (None, self')
      end
  end.

(** The accept loop of [start_server] over a finite sequence of
    connections, each one handled to its end before the next and under
    the network as it behaves at that time. (The source hands every
    connection to a thread of its own; interleavings of handlers are
    not modelled.) *)
Definition serve (events : list (network * received)) (self : ChordNode)
    : ChordNode :=
  fold_left (fun s ev => snd (handle_request (fst ev) (snd ev) s))
            events self.

End Node.

(** ** Vocabulary of the statements *)

(** The integer a key string is stored under. *)
Definition key_id (k : string) : Z :=
  SHA1.be_int (SHA1.digest (String.list_byte_of_string k)).

Ltac step_py :=
  cbv beta iota zeta delta
    [bind lift attr assign ret raise try_except get_successor fst snd].

(** The request fields the dispatcher reads up front with [get]. *)
Definition field (d : gmap string value) (k : string) : value :=
  default VNone (d !! k).

(** What each operation may do to the node. *)
Definition same_ring (a b : ChordNode) : Prop :=
  ip a = ip b /\ port a = port b /\ node_id a = node_id b
  /\ successor a = successor b.

(** A connection writes the store entry [h] only by an [insert] or a
    [delete] whose key hashes to [h]. *)
Definition writes_entry (h : Z) (rx : received) : bool :=
  match rx with
  | Decoded (VDict d) =>
      (eq_str (field d "command") "insert"
       || eq_str (field d "command") "delete")
      && match hashed_key (field d "key") with
         | Returns h' => h' =? h
         | Raises _ => false
         end
  | _ => false
  end.

(** The successor a response to the join's [find_successor] request
    hands over: the ["successor"] field of an object whose ["status"]
    is ["success"]. *)
Definition learned_successor (response : value) : option value :=
  match response with
  | VDict r =>
      match r !! "status" with
      | Some status =>
          if eq_str status "success" then r !! "successor" else None
      | None => None
      end
  | _ => None
  end.

Definition join_request (self : ChordNode) : value :=
  VDict {[ "command" := VStr "find_successor";
           "node_id" := VInt (node_id self) ]}.

(** A node holds a successor descriptor that is not null. *)
Definition holds_successor (self : ChordNode) : Prop :=
  exists s, successor self = Some s /\ s <> VNone.

(** A node that cannot read an id off its successor cannot route. *)
Definition no_successor_id (self : ChordNode) : Prop :=
  successor self = None
  \/ exists s e, successor self = Some s
                 /\ subscript s "node_id" = Raises e.

(** ** A two-node scenario

    Node A listens on 127.0.0.1:5000 and starts the ring; node B listens
    on 127.0.0.1:5001 and joins through A. *)

(** A stand-in for [repr]; the scenario interpolates neither floats
    nor containers. *)
Definition no_containers : value -> string := fun _ => EmptyString.

(** Every connection is refused. *)
Definition refusing : network :=
  fun _ _ _ => inl "[Errno 111] Connection refused"%string.

(** Every request gets the same response. *)
Definition answering (response : value) : network :=
  fun _ _ _ => inr response.

(** The str ['\ud800'], as [json.loads] makes it from ["\ud800"]. *)
Definition lone_surrogate : string :=
  String "237"%char (String "160"%char (String "128"%char EmptyString)).

Definition id_a : Z := 1041195083025998055559450424623959893298787457821.
Definition id_b : Z := 773152486527641703026531079380358735484735592536.

Definition descriptor_a : value :=
  descriptor (VInt id_a) (VStr "127.0.0.1") (VInt 5000).

Definition node_a : ChordNode :=
  {| ip := "127.0.0.1"; port := 5000; node_id := id_a; data_store := ∅;
     predecessor := VNone; successor := Some descriptor_a |}.

Definition node_b : ChordNode :=
  {| ip := "127.0.0.1"; port := 5001; node_id := id_b; data_store := ∅;
     predecessor := VNone; successor := Some descriptor_a |}.

(** ** Both ends of a connection, and the entry point *)

(** What [send_request] reads when its request is handled by [peer]:
    the response the handler wrote, or, when the handler raised and the
    connection was closed with nothing written, the text of the error
    [json.loads] raises on the empty reply. Request and response are
    taken to fit the 1024 bytes of one [recv], and to come out of
    [json.dumps] and [json.loads] as they went in. *)
Definition empty_reply : string :=
  "Expecting value: line 1 column 1 (char 0)".

Definition served_by (py_repr : value -> string) (net : network)
    (peer : ChordNode) (request : value) : string + value :=
  match fst (handle_request py_repr net (Decoded request) peer) with
  | Some response => inr response
  | None => inl empty_reply
  end.

(** The requests [join] hands to [send_request], in order, each with
    the address it goes to. *)
Definition join_sends (net : network) (bootstrap_ip bootstrap_port : value)
    (self : ChordNode) : list (value * value * value) :=
  let request := VDict {[ "command" := VStr "find_successor";
                          "node_id" := VInt (node_id self) ]} in
  let first := (bootstrap_ip, bootstrap_port, request) in
  let successor_response :=
    send_request net bootstrap_ip bootstrap_port request in
  match subscript successor_response "status" with
  | Returns status =>
      if eq_str status "success" then
        match subscript successor_response "successor" with
        | Returns succ =>
            let update_predecessor_request :=
              VDict {[ "command" := VStr "update_predecessor";
                       "node_id" := VInt (node_id self);
                       "ip" := VStr (ip self);
                       "port" := VInt (port self) ]} in
            match subscript succ "ip" with
            | Returns sip =>
                match subscript succ "port" with
                | Returns sport =>
                    [first; (sip, sport, update_predecessor_request)]
                | Raises _ => [first]
                end
            | Raises _ => [first]
            end
        | Raises _ => [first]
        end
      else [first]
  | Raises _ => [first]
  end.



Section Main.

(** Python's [int] on a string: which strings it reads (signs, blanks,
    underscores, digits of other scripts) is left to the environment. *)
Variable py_int : string -> outcome Z.


End Main.



(** * Properties *)

(** ** Identifier derivation *)

Section HashFacts.

Lemma octet_range (b : byte) : 0 <= SHA1.octet b < 256.
Proof.
  unfold SHA1.octet. pose proof (Byte.to_N_bounded b). lia.
Qed.

Lemma hex_value_hex_char (n : Z) :
  0 <= n < 16 -> hex_value (SHA1.hex_char n) = Some n.
Proof.
  intros Hn.
  rewrite <- (Z2Nat.id n) by lia.
  assert (Hk : (Z.to_nat n < 16)%nat) by lia.
  generalize dependent (Z.to_nat n). intros k Hk.
  do 16 (destruct k as [| k]; [reflexivity |]). lia.
Qed.

Lemma int16_from_hexdigest (d : list byte) (acc : Z) :
  int16_from acc (SHA1.hexdigest d) = Returns (fold_left SHA1.be_step d acc).
Proof.
  revert acc. induction d as [| b d IH]; intros acc; [reflexivity |].
  pose proof (octet_range b) as Hb.
  cbn [SHA1.hexdigest int16_from fold_left].
  rewrite hex_value_hex_char
    by (split; [apply Z.div_pos | apply Z.div_lt_upper_bound]; lia).
  rewrite hex_value_hex_char by (apply Z.mod_pos_bound; lia).
  rewrite IH. do 2 f_equal. unfold SHA1.be_step.
  pose proof (Z.div_mod (SHA1.octet b) 16). lia.
Qed.

Lemma be_bytes_length (n : nat) (z : Z) :
  List.length (SHA1.be_bytes n z) = n.
Proof.
  revert z. induction n as [| n IH]; intros z; [reflexivity |].
  cbn [SHA1.be_bytes]. rewrite length_app, IH. cbn. lia.
Qed.

Lemma serialize_length (h : SHA1.state) :
  List.length (SHA1.serialize h) = 20%nat.
Proof.
  destruct h as [[[[h0 h1] h2] h3] h4]. unfold SHA1.serialize.
  rewrite !length_app, !be_bytes_length. reflexivity.
Qed.

Lemma digest_length (msg : list byte) :
  List.length (SHA1.digest msg) = 20%nat.
Proof. apply serialize_length. Qed.

Lemma be_fold_bound (d : list byte) (acc : Z) :
  0 <= acc ->
  acc * 256 ^ Z.of_nat (List.length d)
    <= fold_left SHA1.be_step d acc
    < (acc + 1) * 256 ^ Z.of_nat (List.length d).
Proof.
  revert acc. induction d as [| b d IH]; intros acc Hacc.
  - cbn. lia.
  - pose proof (octet_range b) as Hb.
    cbn [fold_left List.length].
    assert (Hstep : 0 <= SHA1.be_step acc b) by (unfold SHA1.be_step; lia).
    specialize (IH _ Hstep).
    rewrite Nat2Z.inj_succ, Z.pow_succ_r by lia.
    set (p := 256 ^ Z.of_nat (List.length d)) in *.
    assert (0 < p) by (apply Z.pow_pos_nonneg; lia).
    unfold SHA1.be_step in *. nia.
Qed.

Lemma be_int_digest_range (msg : list byte) :
  0 <= SHA1.be_int (SHA1.digest msg) < 2 ^ 160.
Proof.
  pose proof (be_fold_bound (SHA1.digest msg) 0 ltac:(lia)) as H.
  rewrite digest_length in H. unfold SHA1.be_int.
  change (256 ^ Z.of_nat 20) with (2 ^ 160) in H. lia.
Qed.

Lemma digest_nonempty (msg : list byte) : SHA1.digest msg <> [].
Proof.
  intros H. pose proof (digest_length msg) as L. rewrite H in L.
  discriminate L.
Qed.

Lemma sha1_id_returns (b : list byte) :
  sha1_id b = Returns (SHA1.be_int (SHA1.digest b)).
Proof.
  unfold sha1_id, int16.
  destruct (SHA1.hexdigest (SHA1.digest b)) eqn:E.
  - pose proof (digest_nonempty b) as Hne.
    destruct (SHA1.digest b); [congruence | discriminate E].
  - rewrite <- E, int16_from_hexdigest. cbn [obind]. f_equal.
    apply Z.mod_small, be_int_digest_range.
Qed.

Lemma hashed_key_returns (k : string) :
  encodable k = true ->
  hashed_key (VStr k)
  = Returns (SHA1.be_int (SHA1.digest (String.list_byte_of_string k))).
Proof.
  intros Hok. unfold hashed_key. cbn [encode]. rewrite Hok.
  cbn [obind]. apply sha1_id_returns.
Qed.

Lemma hashed_key_surrogate (k : string) :
  encodable k = false -> hashed_key (VStr k) = Raises UnicodeEncodeError.
Proof.
  intros Hbad. unfold hashed_key. cbn [encode]. rewrite Hbad. reflexivity.
Qed.



End HashFacts.

(** ** The key-value store *)

Section StoreFacts.

Variable py_repr : value -> string.

Lemma insert_str (k : string) (v : value) (self : ChordNode) :
  encodable k = true ->
  insert py_repr (VStr k) v self
  = (Returns (VDict {[ "status" := VStr "success";
                       "message" := VStr ("Inserted " +:+ k +:+ " -> "
                                            +:+ py_str py_repr v) ]}),
     set_data_store <[key_id k := v]> self).
Proof.
  intros Hok. unfold insert. step_py.
  rewrite hashed_key_returns by exact Hok. reflexivity.
Qed.

Lemma query_str (k : string) (self : ChordNode) :
  encodable k = true ->
  query (VStr k) self
  = (Returns (match data_store self !! key_id k with
              | Some v => VDict {[ "status" := VStr "success";
                                   "value" := v ]}
              | None => VDict {[ "status" := VStr "error";
                                 "message" := VStr "Key not found" ]}
              end),
     self).
Proof.
  intros Hok. unfold query. step_py.
  rewrite hashed_key_returns by exact Hok. fold (key_id k).
  destruct (data_store self !! key_id k); reflexivity.
Qed.

Lemma delete_str (k : string) (self : ChordNode) :
  encodable k = true ->
  delete py_repr (VStr k) self
  = match data_store self !! key_id k with
    | Some _ =>
        (Returns (VDict {[ "status" := VStr "success";
                           "message" := VStr ("Deleted " +:+ k) ]}),
         set_data_store (base.delete (key_id k)) self)
    | None =>
        (Returns (VDict {[ "status" := VStr "error";
                           "message" := VStr "Key not found" ]}),
         self)
    end.
Proof.
  intros Hok. unfold delete. step_py.
  rewrite hashed_key_returns by exact Hok. fold (key_id k).
  destruct (data_store self !! key_id k); reflexivity.
Qed.

(** A key that cannot be hashed stops each store operation at its first
    line, before the store is touched. *)
Lemma insert_raises (key v : value) (self : ChordNode) (e : exn) :
  hashed_key key = Raises e ->
  insert py_repr key v self = (Raises e, self).
Proof. intros H. unfold insert. step_py. rewrite H. reflexivity. Qed.

Lemma query_raises (key : value) (self : ChordNode) (e : exn) :
  hashed_key key = Raises e -> query key self = (Raises e, self).
Proof. intros H. unfold query. step_py. rewrite H. reflexivity. Qed.

Lemma delete_raises (key : value) (self : ChordNode) (e : exn) :
  hashed_key key = Raises e ->
  delete py_repr key self = (Raises e, self).
Proof. intros H. unfold delete. step_py. rewrite H. reflexivity. Qed.

Lemma hashed_key_not_str (key : value) :
  (forall s, key <> VStr s) -> hashed_key key = Raises AttributeError.
Proof.
  intros H. destruct key; try reflexivity. exfalso. eapply H. reflexivity.
Qed.

Lemma insert_not_str (key v : value) (self : ChordNode) :
  (forall s, key <> VStr s) ->
  insert py_repr key v self = (Raises AttributeError, self).
Proof. intros H. apply insert_raises, hashed_key_not_str, H. Qed.

Lemma query_not_str (key : value) (self : ChordNode) :
  (forall s, key <> VStr s) ->
  query key self = (Raises AttributeError, self).
Proof. intros H. apply query_raises, hashed_key_not_str, H. Qed.

Lemma delete_not_str (key : value) (self : ChordNode) :
  (forall s, key <> VStr s) ->
  delete py_repr key self = (Raises AttributeError, self).
Proof. intros H. apply delete_raises, hashed_key_not_str, H. Qed.

(** A key is a string that hashes, or hashing it raises. *)
Lemma key_cases (key : value) :
  (exists s, key = VStr s /\ encodable s = true)
  \/ (exists e, hashed_key key = Raises e).
Proof.
  destruct key as [| | | | s | |];
    try (right; eexists; reflexivity).
  destruct (encodable s) eqn:E.
  - left. exists s. split; [reflexivity | exact E].
  - right. eexists. apply hashed_key_surrogate, E.
Qed.

End StoreFacts.

(** ** Routing *)

Section RoutingFacts.

(** On integers the comparisons are those of [Z]. *)
Lemma compare_numbers_int (a b : Z) :
  compare_numbers (Dyadic a 0) (Dyadic b 0) = Some (a ?= b).
Proof.
  cbn [compare_numbers]. cbv zeta.
  change (2 ^ (0 - Z.min 0 0)) with 1. rewrite !Z.mul_1_r. reflexivity.
Qed.

Lemma num_eq_int (a b : Z) : num_eq (Dyadic a 0) (Dyadic b 0) = (a =? b).
Proof.
  unfold num_eq. rewrite compare_numbers_int.
  destruct (Z.compare_spec a b), (Z.eqb_spec a b); (reflexivity || lia).
Qed.

Lemma num_lt_int (a b : Z) : num_lt (Dyadic a 0) (Dyadic b 0) = (a <? b).
Proof. unfold num_lt, Z.ltb. rewrite compare_numbers_int. reflexivity. Qed.

Lemma num_le_int (a b : Z) : num_le (Dyadic a 0) (Dyadic b 0) = (a <=? b).
Proof.
  unfold num_le, Z.leb. rewrite compare_numbers_int.
  destruct (a ?= b); reflexivity.
Qed.

Lemma find_successor_unchanged (net : network) (target : value)
    (self : ChordNode) :
  snd (find_successor net target self) = self.
Proof.
  unfold find_successor. step_py.
  destruct (successor self) as [succ |]; [| reflexivity].
  destruct (subscript succ "node_id") as [sid | e]; [| reflexivity].
  destruct (eq_int sid (node_id self)); [reflexivity |].
  destruct (as_number target) as [t |]; [| reflexivity].
  destruct (num_lt (Dyadic (node_id self) 0) t).
  - destruct (as_number sid) as [s |]; [| reflexivity].
    destruct (num_le t s); [reflexivity |].
    destruct (subscript succ "ip"); [| reflexivity].
    destruct (subscript succ "port"); reflexivity.
  - destruct (subscript succ "ip"); [| reflexivity].
    destruct (subscript succ "port"); reflexivity.
Qed.

(** The first test of [find_successor]: a successor bearing the node's
    own id is the answer, whatever the target is. *)
Lemma find_successor_self (net : network) (target succ sid : value)
    (self : ChordNode) :
  successor self = Some succ ->
  subscript succ "node_id" = Returns sid ->
  eq_int sid (node_id self) = true ->
  find_successor net target self
  = (Returns (VDict {[ "status" := VStr "success"; "successor" := succ ]}),
     self).
Proof.
  intros Hs Hid Heq. unfold find_successor. step_py.
  rewrite Hs, Hid, Heq. reflexivity.
Qed.

(** The interval test, for an integer target and a successor
    descriptor with an integer id other than the node's. *)
Lemma find_successor_inside (net : network) (target sid : Z)
    (d : gmap string value) (self : ChordNode) :
  successor self = Some (VDict d) ->
  d !! "node_id" = Some (VInt sid) ->
  sid <> node_id self ->
  node_id self < target <= sid ->
  find_successor net (VInt target) self
  = (Returns (VDict {[ "status" := VStr "success";
                       "successor" := VDict d ]}), self).
Proof.
  intros Hs Hid Hne [Hlt Hle]. unfold find_successor. step_py.
  rewrite Hs. cbn [subscript]. rewrite Hid.
  cbn [eq_int as_number].
  rewrite num_eq_int, num_lt_int, num_le_int.
  destruct (Z.eqb_spec sid (node_id self)) as [E | _]; [contradiction |].
  destruct (Z.ltb_spec (node_id self) target); [| lia].
  destruct (Z.leb_spec target sid); [reflexivity | lia].
Qed.

Lemma find_successor_forward (net : network) (target sid : Z)
    (d : gmap string value) (sip sport : value) (self : ChordNode) :
  successor self = Some (VDict d) ->
  d !! "node_id" = Some (VInt sid) ->
  sid <> node_id self ->
  d !! "ip" = Some sip ->
  d !! "port" = Some sport ->
  ~ (node_id self < target <= sid) ->
  find_successor net (VInt target) self
  = (Returns
       (send_request net sip sport
          (VDict {[ "command" := VStr "find_successor";
                    "node_id" := VInt target ]})),
     self).
Proof.
  intros Hs Hid Hne Hip Hport Hout. unfold find_successor. step_py.
  rewrite Hs. cbn [subscript]. rewrite Hid, Hip, Hport.
  cbn [eq_int as_number].
  rewrite num_eq_int, num_lt_int, num_le_int.
  destruct (Z.eqb_spec sid (node_id self)) as [E | _]; [contradiction |].
  destruct (Z.ltb_spec (node_id self) target); [| reflexivity].
  destruct (Z.leb_spec target sid); [lia | reflexivity].
Qed.

End RoutingFacts.

(** ** The dispatcher *)

Section DispatchFacts.

Variable py_repr : value -> string.
Variable net : network.

Lemma process_request_dict (d : gmap string value) (self : ChordNode) :
  process_request py_repr net (VDict d) self
  = (if eq_str (field d "command") "insert" then
       insert py_repr (field d "key") (field d "value")
     else if eq_str (field d "command") "query" then
       query (field d "key")
     else if eq_str (field d "command") "delete" then
       delete py_repr (field d "key")
     else if eq_str (field d "command") "find_successor" then
       find_successor net (field d "node_id")
     else if eq_str (field d "command") "update_predecessor" then
       (rip <- lift (subscript (VDict d) "ip") ;;
        rport <- lift (subscript (VDict d) "port") ;;
        update_predecessor (field d "node_id") rip rport)%py
     else
       ret (VDict {[ "status" := VStr "error";
                     "message" := VStr ("Invalid command received: "
                                          +:+ py_str py_repr
                                                (field d "command")) ]}))
      self.
Proof. reflexivity. Qed.

Lemma process_request_not_dict (request : value) (self : ChordNode) :
  (forall d, request <> VDict d) ->
  process_request py_repr net request self = (Raises AttributeError, self).
Proof.
  intros H. destruct request; try reflexivity. exfalso. eapply H.
  reflexivity.
Qed.

Lemma eq_str_false (v : value) (s : string) :
  v <> VStr s -> eq_str v s = false.
Proof.
  intros H. destruct v; try reflexivity. cbn.
  apply String.eqb_neq. congruence.
Qed.

Lemma eq_str_true (v : value) (s : string) :
  eq_str v s = true -> v = VStr s.
Proof.
  destruct v; try discriminate. cbn. intros H.
  apply String.eqb_eq in H. congruence.
Qed.

Lemma same_ring_refl (a : ChordNode) : same_ring a a.
Proof. repeat split. Qed.

Lemma insert_frame (key v : value) (self : ChordNode) :
  same_ring (snd (insert py_repr key v self)) self
  /\ predecessor (snd (insert py_repr key v self)) = predecessor self.
Proof.
  destruct (key_cases key) as [(s & -> & Hok) | [e He]].
  - rewrite insert_str by exact Hok. repeat split.
  - erewrite insert_raises by exact He. repeat split.
Qed.

Lemma query_unchanged (key : value) (self : ChordNode) :
  snd (query key self) = self.
Proof.
  destruct (key_cases key) as [(s & -> & Hok) | [e He]].
  - rewrite query_str by exact Hok. reflexivity.
  - erewrite query_raises by exact He. reflexivity.
Qed.

Lemma delete_frame (key : value) (self : ChordNode) :
  same_ring (snd (delete py_repr key self)) self
  /\ predecessor (snd (delete py_repr key self)) = predecessor self.
Proof.
  destruct (key_cases key) as [(s & -> & Hok) | [e He]].
  - rewrite delete_str by exact Hok.
    destruct (data_store self !! key_id s); repeat split.
  - erewrite delete_raises by exact He. repeat split.
Qed.

Lemma update_predecessor_eq (nid pip pport : value) (self : ChordNode) :
  update_predecessor nid pip pport self
  = (Returns (VDict {[ "status" := VStr "success";
                       "message" := VStr "Predecessor updated" ]}),
     set_predecessor (descriptor nid pip pport) self).
Proof. reflexivity. Qed.

(** The [update_predecessor] branch of the dispatcher. *)
Lemma announce_branch (d : gmap string value) (self : ChordNode) :
  let m := (rip <- lift (subscript (VDict d) "ip") ;;
            rport <- lift (subscript (VDict d) "port") ;;
            update_predecessor (field d "node_id") rip rport)%py in
  match d !! "ip", d !! "port" with
  | Some rip, Some rport =>
      m self = update_predecessor (field d "node_id") rip rport self
  | _, _ => m self = (Raises KeyError, self)
  end.
Proof.
  cbv zeta. step_py. cbn [subscript].
  destruct (d !! "ip"), (d !! "port"); reflexivity.
Qed.

(** Serving one connection never touches the node's address, id or
    successor. *)
Lemma process_request_ring (request : value) (self : ChordNode) :
  same_ring (snd (process_request py_repr net request self)) self.
Proof.
  destruct request as [| | | | | | d];
    try (rewrite process_request_not_dict by (intros ? ?; discriminate);
         apply same_ring_refl).
  rewrite process_request_dict.
  destruct (eq_str (field d "command") "insert"); [apply insert_frame |].
  destruct (eq_str (field d "command") "query");
    [rewrite query_unchanged; apply same_ring_refl |].
  destruct (eq_str (field d "command") "delete"); [apply delete_frame |].
  destruct (eq_str (field d "command") "find_successor");
    [rewrite find_successor_unchanged; apply same_ring_refl |].
  destruct (eq_str (field d "command") "update_predecessor");
    [| apply same_ring_refl].
  pose proof (announce_branch d self) as Hb. cbv zeta in Hb.
  destruct (d !! "ip"), (d !! "port"); rewrite Hb; repeat split.
Qed.

Lemma handle_request_ring (rx : received) (self : ChordNode) :
  same_ring (snd (handle_request py_repr net rx self)) self.
Proof.
  destruct rx as [| | request]; try apply same_ring_refl.
  unfold handle_request.
  pose proof (process_request_ring request self) as H.
  destruct (process_request py_repr net request self) as [[r | e] self'];
    exact H.
Qed.

(** The predecessor after one connection is the old one or a freshly
    built descriptor. *)
Lemma process_request_predecessor (request : value) (self : ChordNode) :
  let self' := snd (process_request py_repr net request self) in
  predecessor self' = predecessor self
  \/ exists nid pip pport, predecessor self' = descriptor nid pip pport.
Proof.
  cbv zeta.
  destruct request as [| | | | | | d];
    try (rewrite process_request_not_dict by (intros ? ?; discriminate);
         left; reflexivity).
  rewrite process_request_dict.
  destruct (eq_str (field d "command") "insert");
    [left; apply insert_frame |].
  destruct (eq_str (field d "command") "query");
    [rewrite query_unchanged; left; reflexivity |].
  destruct (eq_str (field d "command") "delete");
    [left; apply delete_frame |].
  destruct (eq_str (field d "command") "find_successor");
    [rewrite find_successor_unchanged; left; reflexivity |].
  destruct (eq_str (field d "command") "update_predecessor");
    [| left; reflexivity].
  pose proof (announce_branch d self) as Hb. cbv zeta in Hb.
  destruct (d !! "ip") as [rip |], (d !! "port") as [rport |];
    rewrite Hb; try (left; reflexivity).
  right. eexists _, _, _. reflexivity.
Qed.

Lemma handle_request_predecessor (rx : received) (self : ChordNode) :
  let self' := snd (handle_request py_repr net rx self) in
  predecessor self' = predecessor self
  \/ exists nid pip pport, predecessor self' = descriptor nid pip pport.
Proof.
  cbv zeta. destruct rx as [| | request]; try (left; reflexivity).
  unfold handle_request.
  pose proof (process_request_predecessor request self) as H.
  cbv zeta in H.
  destruct (process_request py_repr net request self) as [[r | e] self'];
    exact H.
Qed.

(** Only the [update_predecessor] command reaches the predecessor. *)
Lemma process_request_other_command (request : value) (self : ChordNode) :
  (forall d, request = VDict d ->
             field d "command" <> VStr "update_predecessor") ->
  predecessor (snd (process_request py_repr net request self))
  = predecessor self.
Proof.
  intros Hc.
  destruct request as [| | | | | | d];
    try (rewrite process_request_not_dict by (intros ? ?; discriminate);
         reflexivity).
  rewrite process_request_dict.
  destruct (eq_str (field d "command") "insert"); [apply insert_frame |].
  destruct (eq_str (field d "command") "query");
    [rewrite query_unchanged; reflexivity |].
  destruct (eq_str (field d "command") "delete"); [apply delete_frame |].
  destruct (eq_str (field d "command") "find_successor");
    [rewrite find_successor_unchanged; reflexivity |].
  rewrite eq_str_false by (apply Hc; reflexivity). reflexivity.
Qed.

End DispatchFacts.

(** ** Serving a sequence of connections *)

Section ServeFacts.

Variable py_repr : value -> string.

Lemma serve_cons (ev : network * received)
    (evs : list (network * received)) (self : ChordNode) :
  serve py_repr (ev :: evs) self
  = serve py_repr evs (snd (handle_request py_repr (fst ev) (snd ev) self)).
Proof. reflexivity. Qed.

Lemma serve_ring (evs : list (network * received)) (self : ChordNode) :
  same_ring (serve py_repr evs self) self.
Proof.
  revert self. induction evs as [| ev evs IH]; intros self.
  - apply same_ring_refl.
  - rewrite serve_cons.
    destruct (IH (snd (handle_request py_repr (fst ev) (snd ev) self)))
      as (H1 & H2 & H3 & H4).
    destruct (handle_request_ring py_repr (fst ev) (snd ev) self)
      as (G1 & G2 & G3 & G4).
    repeat split; congruence.
Qed.

Lemma descriptor_not_None (nid pip pport : value) :
  descriptor nid pip pport <> VNone.
Proof. discriminate. Qed.

Lemma serve_predecessor_kept (evs : list (network * received))
    (self : ChordNode) :
  predecessor self <> VNone ->
  predecessor (serve py_repr evs self) <> VNone.
Proof.
  revert self. induction evs as [| ev evs IH]; intros self Hp.
  - exact Hp.
  - rewrite serve_cons. apply IH.
    destruct (handle_request_predecessor py_repr (fst ev) (snd ev) self)
      as [-> | (nid & pip & pport & ->)].
    + exact Hp.
    + apply descriptor_not_None.
Qed.

Lemma insert_other_entry (h : Z) (key v : value) (self : ChordNode) :
  match hashed_key key with Returns h' => h' =? h | Raises _ => false end
    = false ->
  data_store (snd (insert py_repr key v self)) !! h = data_store self !! h.
Proof.
  intros Hh. destruct (key_cases key) as [(s & -> & Hok) | [e He]].
  - rewrite insert_str by exact Hok.
    rewrite hashed_key_returns in Hh by exact Hok.
    fold (key_id s) in Hh. cbn [snd set_data_store data_store].
    apply lookup_insert_ne. lia.
  - erewrite insert_raises by exact He. reflexivity.
Qed.

Lemma delete_other_entry (h : Z) (key : value) (self : ChordNode) :
  match hashed_key key with Returns h' => h' =? h | Raises _ => false end
    = false ->
  data_store (snd (delete py_repr key self)) !! h = data_store self !! h.
Proof.
  intros Hh. destruct (key_cases key) as [(s & -> & Hok) | [e He]].
  - rewrite delete_str by exact Hok.
    rewrite hashed_key_returns in Hh by exact Hok.
    fold (key_id s) in Hh.
    destruct (data_store self !! key_id s); [| reflexivity].
    cbn [snd set_data_store data_store].
    apply lookup_delete_ne. lia.
  - erewrite delete_raises by exact He. reflexivity.
Qed.

Lemma handle_request_other_entry (h : Z) (net : network) (rx : received)
    (self : ChordNode) :
  writes_entry h rx = false ->
  data_store (snd (handle_request py_repr net rx self)) !! h
  = data_store self !! h.
Proof.
  intros Hw. destruct rx as [| | request]; try reflexivity.
  assert (Hp : data_store (snd (process_request py_repr net request self))
                 !! h = data_store self !! h).
  { destruct request as [| | | | | | d];
      try (rewrite process_request_not_dict by (intros ? ?; discriminate);
           reflexivity).
    rewrite process_request_dict. cbn [writes_entry] in Hw.
    destruct (eq_str (field d "command") "insert").
    { apply insert_other_entry. exact Hw. }
    destruct (eq_str (field d "command") "query").
    { rewrite query_unchanged. reflexivity. }
    destruct (eq_str (field d "command") "delete").
    { apply delete_other_entry. exact Hw. }
    destruct (eq_str (field d "command") "find_successor").
    { rewrite find_successor_unchanged. reflexivity. }
    destruct (eq_str (field d "command") "update_predecessor");
      [| reflexivity].
    pose proof (announce_branch d self) as Hb. cbv zeta in Hb.
    destruct (d !! "ip"), (d !! "port"); rewrite Hb; reflexivity. }
  unfold handle_request.
  destruct (process_request py_repr net request self) as [[r | e] self'];
    exact Hp.
Qed.

Lemma serve_other_entries (h : Z) (evs : list (network * received))
    (self : ChordNode) :
  Forall (fun ev => writes_entry h (snd ev) = false) evs ->
  data_store (serve py_repr evs self) !! h = data_store self !! h.
Proof.
  intros Hall. revert self.
  induction Hall as [| ev evs Hev _ IH]; intros self; [reflexivity |].
  rewrite serve_cons, IH. apply handle_request_other_entry. exact Hev.
Qed.

End ServeFacts.

(** ** Construction and the join sequence *)

Section JoinFacts.

Lemma join_returns (net : network) (bip bport : value) (self : ChordNode) :
  fst (join net bip bport self) = Returns tt.
Proof. reflexivity. Qed.

Lemma join_successor (net : network) (bip bport : value)
    (self : ChordNode) :
  snd (join net bip bport self)
  = match learned_successor
            (send_request net bip bport (join_request self)) with
    | Some s => set_successor s self
    | None => self
    end.
Proof.
  unfold join, learned_successor, join_request. step_py.
  destruct (send_request net bip bport _) as [| | | | | | r];
    try reflexivity.
  cbn [subscript].
  destruct (r !! "status") as [status |]; [| reflexivity].
  destruct (eq_str status "success").
  - destruct (r !! "successor") as [succ |]; [| reflexivity].
    destruct succ as [| | | | | | d]; try reflexivity.
    cbn [subscript].
    destruct (d !! "ip"); [| reflexivity].
    destruct (d !! "port"); reflexivity.
  - destruct (r !! "message"); reflexivity.
Qed.

Lemma generate_id_returns (ip : string) (port : Z) :
  generate_id ip port
  = Returns (key_id (ip +:+ ":" +:+ str_of_int port)).
Proof. unfold generate_id. apply sha1_id_returns. Qed.

Lemma init_bootstrap (net : network) (ip : string) (port : Z)
    (bip bport : value) :
  truthy bip && truthy bport = false ->
  init net ip port bip bport
  = Returns {| ip := ip; port := port;
               node_id := key_id (ip +:+ ":" +:+ str_of_int port);
               data_store := ∅; predecessor := VNone;
               successor :=
                 Some (descriptor
                         (VInt (key_id (ip +:+ ":" +:+ str_of_int port)))
                         (VStr ip) (VInt port)) |}.
Proof.
  intros Hb. unfold init. rewrite generate_id_returns. cbn [obind].
  rewrite Hb. reflexivity.
Qed.

Lemma init_joining (net : network) (ip : string) (port : Z)
    (bip bport : value) :
  truthy bip && truthy bport = true ->
  let fresh := {| ip := ip; port := port;
                  node_id := key_id (ip +:+ ":" +:+ str_of_int port);
                  data_store := ∅; predecessor := VNone;
                  successor := None |} in
  init net ip port bip bport
  = Returns {| ip := ip; port := port;
               node_id := key_id (ip +:+ ":" +:+ str_of_int port);
               data_store := ∅; predecessor := VNone;
               successor :=
                 learned_successor
                   (send_request net bip bport (join_request fresh)) |}.
Proof.
  intros Hb fresh. unfold init. rewrite generate_id_returns. cbn [obind].
  rewrite Hb. fold fresh. rewrite join_successor.
  destruct (learned_successor _); reflexivity.
Qed.

Lemma join_frame (net : network) (bip bport : value) (self : ChordNode) :
  let self' := snd (join net bip bport self) in
  ip self' = ip self /\ port self' = port self
  /\ node_id self' = node_id self /\ data_store self' = data_store self
  /\ predecessor self' = predecessor self.
Proof.
  cbv zeta. rewrite join_successor.
  destruct (learned_successor _); repeat split.
Qed.

End JoinFacts.

(** ** The scenario, run *)

Example sha1_abc :
  SHA1.hexdigest (SHA1.digest (String.list_byte_of_string "abc"))
  = "a9993e364706816aba3e25717850c26c9cd0d89d"%string.
Proof. vm_compute. reflexivity. Qed.

Example sha1_two_blocks :
  SHA1.hexdigest
    (SHA1.digest
       (String.list_byte_of_string
          "abcdbcdecdefdefgefghfghighijhijkijkljklmklmnlmnomnopnopq"))
  = "84983e441c3bd26ebaae4aa1f95129e5e54670f1"%string.
Proof. vm_compute. reflexivity. Qed.

Example node_a_constructed :
  init refusing "127.0.0.1" 5000 VNone VNone = Returns node_a.
Proof. vm_compute. reflexivity. Qed.

Example node_a_answers_b :
  process_request no_containers refusing (join_request node_b) node_a
  = (Returns (VDict {[ "status" := VStr "success";
                       "successor" := descriptor_a ]}), node_a).
Proof. vm_compute. reflexivity. Qed.

Example node_b_constructed :
  init (answering (VDict {[ "status" := VStr "success";
                            "successor" := descriptor_a ]}))
       "127.0.0.1" 5001 (VStr "127.0.0.1") (VInt 5000)
  = Returns node_b.
Proof. vm_compute. reflexivity. Qed.

(** 1 < 1.5 and not 1.5 <= 1; nothing is below, above or equal to a
    NaN. *)
Example int_float_order :
  let one_and_a_half := number_of_float (S754_finite false 3 (-1)) in
  num_lt (Dyadic 1 0) one_and_a_half = true
  /\ num_le one_and_a_half (Dyadic 1 0) = false
  /\ num_lt (Dyadic 1 0) NaN = false
  /\ num_eq NaN NaN = false.
Proof. repeat split. Qed.

(** A target that is not a number stops the interval test. *)
Example find_successor_str_target :
  find_successor refusing (VStr "15") node_b = (Raises TypeError, node_b).
Proof. vm_compute. reflexivity. Qed.

(** The node left behind by a refused join cannot route. *)
Example find_successor_after_refused_join :
  obind (init refusing "127.0.0.1" 5001 (VStr "127.0.0.1") (VInt 5000))
        (fun self => fst (find_successor refusing (VInt 15) self))
  = Raises AttributeError.
Proof. vm_compute. reflexivity. Qed.

(** * The claims *)



(** C2. A node constructed without a bootstrap address (the arguments
    are missing or falsy) comes out with its own descriptor as
    successor, so [successor.node_id == node_id], and answers every
    [find_successor], whatever the target, with that descriptor and
    success status; this stays so after any connections it serves. More
    generally, a node whose successor bears the node's own id answers
    every [find_successor] with the successor descriptor it holds and
    success status, without looking at the target. *)
Theorem C2_single_node_ring :
  (forall (py_repr : value -> string) (net : network) (ip : string)
          (port : Z) (bootstrap_ip bootstrap_port : value),
      truthy bootstrap_ip && truthy bootstrap_port = false ->
      exists self,
        init net ip port bootstrap_ip bootstrap_port = Returns self
        /\ successor self = Some (self_descriptor self)
        /\ (exists sid, subscript (self_descriptor self) "node_id"
                        = Returns sid
                        /\ eq_int sid (node_id self) = true)
        /\ forall (evs : list (network * received)) (net' : network)
                  (x : value),
            find_successor net' x (serve py_repr evs self)
            = (Returns (VDict {[ "status" := VStr "success";
                                 "successor" := self_descriptor self ]}),
               serve py_repr evs self))
  /\ (forall (self : ChordNode) (succ sid : value),
         successor self = Some succ ->
         subscript succ "node_id" = Returns sid ->
         eq_int sid (node_id self) = true ->
         forall (net : network) (x : value),
           find_successor net x self
           = (Returns (VDict {[ "status" := VStr "success";
                                "successor" := succ ]}), self)).
Proof.
  split.
  - intros py_repr net ip0 port0 bip bport Hfalsy.
    eexists. split; [apply init_bootstrap; exact Hfalsy |].
    split; [reflexivity |].
    split.
    { exists (VInt (key_id (ip0 +:+ ":" +:+ str_of_int port0))).
      split; [reflexivity |]. cbn [eq_int as_number].
      rewrite num_eq_int. apply Z.eqb_refl. }
    intros evs net' x.
    match goal with |- context [serve py_repr evs ?s] => set (self := s) end.
    destruct (serve_ring py_repr evs self) as (_ & _ & Hid & Hsucc).
    apply find_successor_self with (sid := VInt (node_id self)).
    + rewrite Hsucc. reflexivity.
    + reflexivity.
    + cbn [eq_int as_number]. rewrite num_eq_int, Hid. apply Z.eqb_refl.
  - intros self succ sid Hs Hsub Heq net x.
    apply find_successor_self with (sid := sid); assumption.
Qed.

Lemma C2_witness :
  (truthy VNone && truthy VNone = false
   /\ successor node_a = Some descriptor_a
   /\ subscript descriptor_a "node_id" = Returns (VInt id_a)
   /\ eq_int (VInt id_a) (node_id node_a) = true)
  /\ (exists self,
         init refusing "127.0.0.1" 5000 VNone VNone = Returns self
         /\ successor self = Some (self_descriptor self))
  /\ find_successor refusing (VStr "anything") node_a
     = (Returns (VDict {[ "status" := VStr "success";
                          "successor" := descriptor_a ]}), node_a).
Proof.
  split; [repeat split |].
  split.
  - destruct (proj1 C2_single_node_ring no_containers refusing
                "127.0.0.1" 5000 VNone VNone eq_refl)
      as (self & Hinit & Hsucc & _).
    exists self. split; assumption.
  - exact (proj2 C2_single_node_ring node_a descriptor_a (VInt id_a)
             eq_refl eq_refl eq_refl refusing (VStr "anything")).
Defined.

(** C3 as stated (insert succeeds for every string key) fails on a key
    with a lone surrogate, which a peer can send as ["\ud800"]:
    [key.encode()] raises, nothing is stored and the connection gets no
    response. *)
Lemma C3_counterexample_surrogate_key :
  insert no_containers (VStr lone_surrogate) (VStr "artist") node_a
  = (Raises UnicodeEncodeError, node_a)
  /\ handle_request no_containers refusing
       (Decoded (VDict {[ "command" := VStr "insert";
                          "key" := VStr lone_surrogate;
                          "value" := VStr "artist" ]})) node_a
     = (None, node_a).
Proof. split; vm_compute; reflexivity. Qed.

(** C3, amended. For every key string [k] that UTF-8 can encode (one
    without a lone surrogate) and every value [v] (a string in
    particular), [insert(k, v)] returns the success response and stores
    [v] under the hashed key, overwriting whatever was there; after any
    connections served in between that neither insert nor delete a key
    with the same hash, [query(k)] on that node returns success with
    value [v] (and changes nothing). On a key string with a lone
    surrogate [insert] raises at [key.encode()], before the store is
    touched, and the handler sends nothing. *)
Theorem C3_insert_then_query
    (py_repr : value -> string) (k : string) (v : value)
    (self : ChordNode) (evs : list (network * received)) :
  (encodable k = true ->
   Forall (fun ev => writes_entry (key_id k) (snd ev) = false) evs ->
   let inserted := snd (insert py_repr (VStr k) v self) in
   let later := serve py_repr evs inserted in
   fst (insert py_repr (VStr k) v self)
   = Returns (VDict {[ "status" := VStr "success";
                       "message" := VStr ("Inserted " +:+ k +:+ " -> "
                                            +:+ py_str py_repr v) ]})
   /\ (forall s, v = VStr s -> py_str py_repr v = s)
   /\ data_store inserted = <[key_id k := v]> (data_store self)
   /\ query (VStr k) later
      = (Returns (VDict {[ "status" := VStr "success"; "value" := v ]}),
         later))
  /\ (encodable k = false ->
      insert py_repr (VStr k) v self = (Raises UnicodeEncodeError, self)
      /\ forall (net : network) (d : gmap string value),
           field d "command" = VStr "insert" ->
           field d "key" = VStr k ->
           handle_request py_repr net (Decoded (VDict d)) self
           = (None, self)).
Proof.
  split.
  - intros Hok Hquiet inserted later. subst later inserted.
    rewrite insert_str by exact Hok. cbn [fst snd].
    split; [reflexivity |].
    split; [intros s ->; reflexivity |].
    split; [reflexivity |].
    rewrite query_str, serve_other_entries by assumption.
    cbn [set_data_store data_store]. rewrite lookup_insert_eq. reflexivity.
  - intros Hbad.
    assert (Hi : forall val, insert py_repr (VStr k) val self
                             = (Raises UnicodeEncodeError, self))
      by (intros val; apply insert_raises, hashed_key_surrogate, Hbad).
    split; [apply Hi |].
    intros net d Hc Hk. unfold handle_request.
    rewrite process_request_dict, Hc, Hk.
    change (eq_str (VStr "insert") "insert") with true. cbv iota.
    rewrite Hi. reflexivity.
Qed.

Lemma C3_witness :
  let other :=
    (refusing,
     Decoded (VDict {[ "command" := VStr "delete";
                       "key" := VStr "another song" ]})) in
  (encodable "song" = true
   /\ Forall (fun ev => writes_entry (key_id "song") (snd ev) = false)
        [other]
   /\ encodable lone_surrogate = false)
  /\ query (VStr "song")
       (serve no_containers [other]
          (snd (insert no_containers (VStr "song") (VStr "artist") node_a)))
     = (Returns (VDict {[ "status" := VStr "success";
                          "value" := VStr "artist" ]}),
        serve no_containers [other]
          (snd (insert no_containers (VStr "song") (VStr "artist") node_a)))
  /\ insert no_containers (VStr lone_surrogate) (VStr "artist") node_a
     = (Raises UnicodeEncodeError, node_a).
Proof.
  intros other.
  assert (Hquiet : Forall (fun ev => writes_entry (key_id "song") (snd ev)
                                     = false) [other]).
  { constructor; [vm_compute; reflexivity | constructor]. }
  split; [split; [reflexivity | split; [exact Hquiet | reflexivity]] |].
  split.
  - exact (proj2 (proj2 (proj2
             (proj1 (C3_insert_then_query no_containers "song"
                       (VStr "artist") node_a [other])
                eq_refl Hquiet)))).
  - exact (proj1 (proj2 (C3_insert_then_query no_containers lone_surrogate
                           (VStr "artist") node_a [])
                    eq_refl)).
Defined.

(** C4 as stated (delete answers "Key not found" rather than crashing,
    for every key string) fails on a key with a lone surrogate:
    [delete] raises at [key.encode()] and the connection gets no
    response. *)
Lemma C4_counterexample_surrogate_key :
  delete no_containers (VStr lone_surrogate) node_a
  = (Raises UnicodeEncodeError, node_a)
  /\ handle_request no_containers refusing
       (Decoded (VDict {[ "command" := VStr "delete";
                          "key" := VStr lone_surrogate ]})) node_a
     = (None, node_a).
Proof. split; vm_compute; reflexivity. Qed.

(** C4, amended. For every key string [k] that UTF-8 can encode:
    [query(k)] right after [delete(k)] returns the error response
    "Key not found"; [delete(k)] with no entry under the hashed key
    returns that same error response and leaves the node as it was;
    with an entry there, it removes the entry and returns success. On a
    key string with a lone surrogate [delete] and [query] raise at
    [key.encode()] and leave the node as it was. *)
Theorem C4_delete_then_query
    (py_repr : value -> string) (k : string) (self : ChordNode) :
  let not_found := VDict {[ "status" := VStr "error";
                            "message" := VStr "Key not found" ]} in
  let deleted := snd (delete py_repr (VStr k) self) in
  (encodable k = true ->
   query (VStr k) deleted = (Returns not_found, deleted)
   /\ (data_store self !! key_id k = None ->
       delete py_repr (VStr k) self = (Returns not_found, self))
   /\ (forall v, data_store self !! key_id k = Some v ->
       delete py_repr (VStr k) self
       = (Returns (VDict {[ "status" := VStr "success";
                            "message" := VStr ("Deleted " +:+ k) ]}),
          set_data_store (base.delete (key_id k)) self)
       /\ data_store deleted !! key_id k = None))
  /\ (encodable k = false ->
      delete py_repr (VStr k) self = (Raises UnicodeEncodeError, self)
      /\ query (VStr k) self = (Raises UnicodeEncodeError, self)).
Proof.
  intros not_found deleted. subst deleted. split.
  - intros Hok. rewrite delete_str, query_str by exact Hok.
    destruct (data_store self !! key_id k) as [v |] eqn:E; cbn [snd].
    + cbn [set_data_store data_store]. rewrite lookup_delete_eq.
      repeat split; try discriminate.
    + rewrite E. repeat split; intros; discriminate.
  - intros Hbad. split.
    + apply delete_raises, hashed_key_surrogate, Hbad.
    + apply query_raises, hashed_key_surrogate, Hbad.
Qed.

Lemma C4_witness :
  let stored := snd (insert no_containers (VStr "song") (VStr "artist")
                       node_a) in
  (encodable "song" = true
   /\ data_store node_a !! key_id "song" = None
   /\ data_store stored !! key_id "song" = Some (VStr "artist")
   /\ encodable lone_surrogate = false)
  /\ delete no_containers (VStr "song") node_a
     = (Returns (VDict {[ "status" := VStr "error";
                          "message" := VStr "Key not found" ]}), node_a)
  /\ delete no_containers (VStr "song") stored
     = (Returns (VDict {[ "status" := VStr "success";
                          "message" := VStr "Deleted song" ]}),
        set_data_store (base.delete (key_id "song")) stored)
  /\ delete no_containers (VStr lone_surrogate) node_a
     = (Raises UnicodeEncodeError, node_a).
Proof.
  intros stored.
  assert (Habsent : data_store node_a !! key_id "song" = None)
    by reflexivity.
  assert (Hpresent : data_store stored !! key_id "song"
                     = Some (VStr "artist")).
  { unfold stored. rewrite insert_str by reflexivity.
    apply lookup_insert_eq. }
  split; [split; [reflexivity | split; [exact Habsent
                 | split; [exact Hpresent | reflexivity]]] |].
  split; [| split].
  - exact (proj1 (proj2 (proj1 (C4_delete_then_query no_containers "song"
                                  node_a) eq_refl))
             Habsent).
  - exact (proj1 (proj2 (proj2 (proj1 (C4_delete_then_query no_containers
                                         "song" stored) eq_refl))
                    _ Hpresent)).
  - exact (proj1 (proj2 (C4_delete_then_query no_containers lone_surrogate
                           node_a) eq_refl)).
Defined.




(** C6 as stated (once constructed, every node holds a successor
    descriptor that is not null) fails for a joining node whose
    bootstrap peer cannot be reached: node B started towards
    127.0.0.1:5000 with every connection refused is constructed, and
    has no [successor] attribute at all. *)
Lemma C6_counterexample_refused_join :
  exists self,
    init refusing "127.0.0.1" 5001 (VStr "127.0.0.1") (VInt 5000)
    = Returns self
    /\ ~ holds_successor self.
Proof.
  eexists. split; [vm_compute; reflexivity |].
  intros (s & Hs & _). discriminate Hs.
Qed.

(** C6, amended. The constructor always gets as far as starting the
    server. A node constructed without a bootstrap address holds its own
    descriptor as successor. A joining node holds a successor exactly
    when the response to its [find_successor] request is an object with
    status "success" that carries a "successor" field; the successor is
    then the value of that field, whether or not the
    [update_predecessor] step that follows succeeds. After any other
    response (a transport failure, an error status, a response of
    another shape) the node holds no successor. *)
Theorem C6_successor_after_construction
    (net : network) (ip : string) (port : Z)
    (bootstrap_ip bootstrap_port : value) :
  exists self,
    init net ip port bootstrap_ip bootstrap_port = Returns self
    /\ (truthy bootstrap_ip && truthy bootstrap_port = false ->
        successor self = Some (self_descriptor self))
    /\ (truthy bootstrap_ip && truthy bootstrap_port = true ->
        let response :=
          send_request net bootstrap_ip bootstrap_port (join_request self) in
        successor self = learned_successor response
        /\ (forall message,
              net bootstrap_ip bootstrap_port (join_request self)
              = inl message ->
              successor self = None)
        /\ (forall r s,
              response = VDict r ->
              r !! "status" = Some (VStr "success") ->
              r !! "successor" = Some s ->
              successor self = Some s)
        /\ (forall r,
              response = VDict r ->
              r !! "status" <> Some (VStr "success") ->
              successor self = None)).
Proof.
  destruct (truthy bootstrap_ip && truthy bootstrap_port) eqn:Hb.
  - eexists. split; [apply init_joining; exact Hb |].
    split; [discriminate |]. intros _. cbv zeta.
    unfold join_request. cbn [node_id successor].
    split; [reflexivity |]. split.
    { intros message Hfail. unfold send_request. rewrite Hfail.
      reflexivity. }
    set (response := send_request net _ _ _). clearbody response.
    split.
    + intros r s -> Hst Hsu. cbn [learned_successor].
      rewrite Hst. cbn [eq_str]. rewrite Hsu. reflexivity.
    + intros r -> Hst. cbn [learned_successor].
      destruct (r !! "status") as [status |]; [| reflexivity].
      destruct (eq_str status "success") eqn:E; [| reflexivity].
      apply eq_str_true in E. congruence.
  - eexists. split; [apply init_bootstrap; exact Hb |].
    split; [intros _; reflexivity | discriminate].
Qed.

Lemma C6_witness :
  let ok := VDict {[ "status" := VStr "success";
                     "successor" := descriptor_a ]} in
  (truthy VNone && truthy VNone = false
   /\ truthy (VStr "127.0.0.1") && truthy (VInt 5000) = true)
  /\ (exists self,
         init refusing "127.0.0.1" 5000 VNone VNone = Returns self
         /\ successor self = Some (self_descriptor self))
  /\ (exists self,
         init (answering ok) "127.0.0.1" 5001 (VStr "127.0.0.1") (VInt 5000)
         = Returns self
         /\ successor self = Some descriptor_a)
  /\ (exists self,
         init refusing "127.0.0.1" 5001 (VStr "127.0.0.1") (VInt 5000)
         = Returns self
         /\ successor self = None)
  /\ (exists self,
         init (answering (VDict {[ "status" := VStr "error";
                                   "message" := VStr "busy" ]}))
              "127.0.0.1" 5001 (VStr "127.0.0.1") (VInt 5000)
         = Returns self
         /\ successor self = None).
Proof.
  intros ok. split; [split; reflexivity |].
  split; [| split; [| split]].
  - destruct (C6_successor_after_construction refusing "127.0.0.1" 5000
                VNone VNone) as (self & Hinit & Hboot & _).
    exists self. split; [exact Hinit | exact (Hboot eq_refl)].
  - destruct (C6_successor_after_construction (answering ok) "127.0.0.1"
                5001 (VStr "127.0.0.1") (VInt 5000))
      as (self & Hinit & _ & Hjoin).
    exists self. split; [exact Hinit |].
    exact (proj1 (proj2 (proj2 (Hjoin eq_refl))) _ descriptor_a
             eq_refl eq_refl eq_refl).
  - destruct (C6_successor_after_construction refusing "127.0.0.1" 5001
                (VStr "127.0.0.1") (VInt 5000))
      as (self & Hinit & _ & Hjoin).
    exists self. split; [exact Hinit |].
    exact (proj1 (proj2 (Hjoin eq_refl)) _ eq_refl).
  - destruct (C6_successor_after_construction
                (answering (VDict {[ "status" := VStr "error";
                                     "message" := VStr "busy" ]}))
                "127.0.0.1" 5001 (VStr "127.0.0.1") (VInt 5000))
      as (self & Hinit & _ & Hjoin).
    exists self. split; [exact Hinit |].
    refine (proj2 (proj2 (proj2 (Hjoin eq_refl))) _ eq_refl _).
    vm_compute. discriminate.
Defined.

(** C7. [update_predecessor(node_id, ip, port)] replaces the
    predecessor, whatever it was, by the descriptor built from its three
    arguments, whatever they are, and returns the success response. No
    other method assigns the predecessor: [insert], [query], [delete],
    [find_successor] and [join] keep it, and so does the dispatcher on
    every request whose command is not [update_predecessor]. Once the
    predecessor is set it is never cleared: after any connections served
    it is still not [None]. *)
Theorem C7_update_predecessor_last_writer
    (py_repr : value -> string) (self : ChordNode) :
  (forall nid pip pport,
      update_predecessor nid pip pport self
      = (Returns (VDict {[ "status" := VStr "success";
                           "message" := VStr "Predecessor updated" ]}),
         set_predecessor (descriptor nid pip pport) self)
      /\ predecessor (snd (update_predecessor nid pip pport self))
         = VDict {[ "node_id" := nid; "ip" := pip; "port" := pport ]})
  /\ (forall key v,
        predecessor (snd (insert py_repr key v self)) = predecessor self)
  /\ (forall key, predecessor (snd (query key self)) = predecessor self)
  /\ (forall key,
        predecessor (snd (delete py_repr key self)) = predecessor self)
  /\ (forall net target,
        predecessor (snd (find_successor net target self))
        = predecessor self)
  /\ (forall net bip bport,
        predecessor (snd (join net bip bport self)) = predecessor self)
  /\ (forall net request,
        (forall d, request = VDict d ->
                   field d "command" <> VStr "update_predecessor") ->
        predecessor (snd (process_request py_repr net request self))
        = predecessor self)
  /\ (forall evs,
        predecessor self <> VNone ->
        predecessor (serve py_repr evs self) <> VNone).
Proof.
  split; [intros; split; reflexivity |].
  split; [intros; apply insert_frame |].
  split; [intros; rewrite query_unchanged; reflexivity |].
  split; [intros; apply delete_frame |].
  split; [intros; rewrite find_successor_unchanged; reflexivity |].
  split; [intros; apply join_frame |].
  split; [intros; apply process_request_other_command; assumption |].
  intros; apply serve_predecessor_kept; assumption.
Qed.

Lemma C7_witness :
  let claimed :=
    snd (update_predecessor (VInt id_b) (VStr "127.0.0.1") (VInt 5001)
           node_a) in
  let events :=
    [(refusing,
      Decoded (VDict {[ "command" := VStr "delete";
                        "key" := VStr "song" ]}));
     (refusing, Undecodable)] in
  predecessor claimed <> VNone
  /\ predecessor (serve no_containers events claimed) <> VNone.
Proof.
  intros claimed events.
  assert (Hset : predecessor claimed <> VNone) by discriminate.
  split; [exact Hset |].
  exact (proj2 (proj2 (proj2 (proj2 (proj2 (proj2 (proj2
           (C7_update_predecessor_last_writer no_containers claimed)))))))
           events Hset).
Defined.

(** C8. A request object whose command is absent or is none of
    [insert], [query], [delete], [find_successor],
    [update_predecessor] falls through to the last line of the
    dispatcher: the response is the error object with message
    "Invalid command received: " followed by the command as Python prints
    it ("None" when absent), the handler sends it, and the node is left
    as it was. *)
Theorem C8_invalid_command
    (py_repr : value -> string) (net : network) (d : gmap string value)
    (self : ChordNode) :
  field d "command" <> VStr "insert" ->
  field d "command" <> VStr "query" ->
  field d "command" <> VStr "delete" ->
  field d "command" <> VStr "find_successor" ->
  field d "command" <> VStr "update_predecessor" ->
  let response :=
    VDict {[ "status" := VStr "error";
             "message" := VStr ("Invalid command received: "
                                  +:+ py_str py_repr (field d "command")) ]} in
  process_request py_repr net (VDict d) self = (Returns response, self)
  /\ handle_request py_repr net (Decoded (VDict d)) self
     = (Some response, self)
  /\ (d !! "command" = None ->
      response = VDict {[ "status" := VStr "error";
                          "message" :=
                            VStr "Invalid command received: None" ]}).
Proof.
  intros H1 H2 H3 H4 H5 response.
  assert (Hp : process_request py_repr net (VDict d) self
               = (Returns response, self)).
  { rewrite process_request_dict.
    rewrite !eq_str_false by assumption. reflexivity. }
  split; [exact Hp |].
  split.
  - unfold handle_request. rewrite Hp. reflexivity.
  - intros Habs. subst response. unfold field. rewrite Habs. reflexivity.
Qed.

Lemma C8_witness :
  let unknown := {[ "command" := VStr "shutdown" ]} : gmap string value in
  let missing := {[ "key" := VStr "song" ]} : gmap string value in
  (field unknown "command" <> VStr "insert"
   /\ field missing "command" <> VStr "insert"
   /\ missing !! "command" = None)
  /\ handle_request no_containers refusing (Decoded (VDict unknown)) node_a
     = (Some (VDict {[ "status" := VStr "error";
                       "message" :=
                         VStr "Invalid command received: shutdown" ]}),
        node_a)
  /\ handle_request no_containers refusing (Decoded (VDict missing)) node_a
     = (Some (VDict {[ "status" := VStr "error";
                       "message" :=
                         VStr "Invalid command received: None" ]}),
        node_a).
Proof.
  intros unknown missing.
  split; [split; [discriminate | split; [discriminate | reflexivity]] |].
  split.
  - exact (proj1 (proj2 (C8_invalid_command no_containers refusing unknown
                           node_a
                           ltac:(discriminate) ltac:(discriminate)
                           ltac:(discriminate) ltac:(discriminate)
                           ltac:(discriminate)))).
  - exact (proj1 (proj2 (C8_invalid_command no_containers refusing missing
                           node_a
                           ltac:(discriminate) ltac:(discriminate)
                           ltac:(discriminate) ltac:(discriminate)
                           ltac:(discriminate)))).
Defined.

(** C9. Store operations and ring operations keep to their own state.
    [insert], [query] and [delete] leave address, id, successor and
    predecessor as they were; [update_predecessor] leaves the data
    store, the successor and the id as they were; [query] and
    [find_successor] (forwarding or not, returning or raising) leave the
    whole node as it was. *)
Theorem C9_frame
    (py_repr : value -> string) (net : network) (self : ChordNode)
    (key v nid pip pport target : value) :
  (successor (snd (insert py_repr key v self)) = successor self
   /\ predecessor (snd (insert py_repr key v self)) = predecessor self
   /\ node_id (snd (insert py_repr key v self)) = node_id self)
  /\ (successor (snd (delete py_repr key self)) = successor self
      /\ predecessor (snd (delete py_repr key self)) = predecessor self
      /\ node_id (snd (delete py_repr key self)) = node_id self)
  /\ (data_store (snd (update_predecessor nid pip pport self))
      = data_store self
      /\ successor (snd (update_predecessor nid pip pport self))
         = successor self
      /\ node_id (snd (update_predecessor nid pip pport self))
         = node_id self)
  /\ snd (query key self) = self
  /\ snd (find_successor net target self) = self.
Proof.
  destruct (insert_frame py_repr key v self) as ((_ & _ & Hi & Hs) & Hp).
  destruct (delete_frame py_repr key self) as ((_ & _ & Hi' & Hs') & Hp').
  repeat split; try assumption.
  - apply query_unchanged.
  - apply find_successor_unchanged.
Qed.

(** C10. A request object whose command is [insert], [query] or
    [delete] and which has no "key" field makes the dispatcher raise
    ([None] has no [encode]); one whose command is [update_predecessor]
    and which has no "ip" or no "port" field makes it raise [KeyError].
    In both cases the handler sends no response, the node is left as it
    was, and the invalid-command response is not produced. *)
Theorem C10_missing_field_raises
    (py_repr : value -> string) (net : network) (d : gmap string value)
    (self : ChordNode) :
  (d !! "key" = None ->
   d !! "command" = Some (VStr "insert")
   \/ d !! "command" = Some (VStr "query")
   \/ d !! "command" = Some (VStr "delete") ->
   process_request py_repr net (VDict d) self = (Raises AttributeError, self)
   /\ handle_request py_repr net (Decoded (VDict d)) self = (None, self))
  /\ (d !! "command" = Some (VStr "update_predecessor") ->
      d !! "ip" = None \/ d !! "port" = None ->
      process_request py_repr net (VDict d) self = (Raises KeyError, self)
      /\ handle_request py_repr net (Decoded (VDict d)) self = (None, self)).
Proof.
  split.
  - intros Hkey Hcmd.
    assert (Hp : process_request py_repr net (VDict d) self
                 = (Raises AttributeError, self)).
    { rewrite process_request_dict. unfold field. rewrite Hkey.
      destruct Hcmd as [-> | [-> | ->]]; reflexivity. }
    split; [exact Hp |]. unfold handle_request. rewrite Hp. reflexivity.
  - intros Hcmd Hmiss.
    assert (Hp : process_request py_repr net (VDict d) self
                 = (Raises KeyError, self)).
    { assert (Hf : field d "command" = VStr "update_predecessor")
        by (unfold field; rewrite Hcmd; reflexivity).
      rewrite process_request_dict, !Hf.
      pose proof (announce_branch d self) as Hb. cbv zeta in Hb.
      destruct Hmiss as [Hm | Hm]; rewrite Hm in Hb.
      - exact Hb.
      - destruct (d !! "ip"); exact Hb. }
    split; [exact Hp |]. unfold handle_request. rewrite Hp. reflexivity.
Qed.

Lemma C10_witness :
  let no_key := {[ "command" := VStr "insert";
                   "value" := VStr "artist" ]} : gmap string value in
  let no_port := {[ "command" := VStr "update_predecessor";
                    "node_id" := VInt id_b;
                    "ip" := VStr "127.0.0.1" ]} : gmap string value in
  (no_key !! "key" = None
   /\ no_key !! "command" = Some (VStr "insert")
   /\ no_port !! "command" = Some (VStr "update_predecessor")
   /\ no_port !! "port" = None)
  /\ handle_request no_containers refusing (Decoded (VDict no_key)) node_a
     = (None, node_a)
  /\ handle_request no_containers refusing (Decoded (VDict no_port)) node_a
     = (None, node_a).
Proof.
  intros no_key no_port.
  split; [repeat split |].
  split.
  - exact (proj2 (proj1 (C10_missing_field_raises no_containers refusing
                           no_key node_a)
                    eq_refl (or_introl eq_refl))).
  - exact (proj2 (proj2 (C10_missing_field_raises no_containers refusing
                           no_port node_a)
                    eq_refl (or_intror eq_refl))).
Defined.

(** * Further properties *)

(** ** Which method a request reaches *)

Section Dispatch.

Variable py_repr : value -> string.
Variable net : network.

Lemma dispatch_insert (d : gmap string value) (self : ChordNode) :
  field d "command" = VStr "insert" ->
  process_request py_repr net (VDict d) self
  = insert py_repr (field d "key") (field d "value") self.
Proof. intros H. rewrite process_request_dict, !H. reflexivity. Qed.

Lemma dispatch_query (d : gmap string value) (self : ChordNode) :
  field d "command" = VStr "query" ->
  process_request py_repr net (VDict d) self = query (field d "key") self.
Proof. intros H. rewrite process_request_dict, !H. reflexivity. Qed.

Lemma dispatch_delete (d : gmap string value) (self : ChordNode) :
  field d "command" = VStr "delete" ->
  process_request py_repr net (VDict d) self
  = delete py_repr (field d "key") self.
Proof. intros H. rewrite process_request_dict, !H. reflexivity. Qed.

Lemma dispatch_find_successor (d : gmap string value) (self : ChordNode) :
  field d "command" = VStr "find_successor" ->
  process_request py_repr net (VDict d) self
  = find_successor net (field d "node_id") self.
Proof. intros H. rewrite process_request_dict, !H. reflexivity. Qed.

Lemma dispatch_update_predecessor (d : gmap string value) (rip rport : value)
    (self : ChordNode) :
  field d "command" = VStr "update_predecessor" ->
  d !! "ip" = Some rip ->
  d !! "port" = Some rport ->
  process_request py_repr net (VDict d) self
  = update_predecessor (field d "node_id") rip rport self.
Proof.
  intros H Hip Hport. rewrite process_request_dict, !H.
  pose proof (announce_branch d self) as Hb. cbv zeta in Hb.
  rewrite Hip, Hport in Hb. exact Hb.
Qed.

Lemma handle_of_process (request response : value) (self self' : ChordNode) :
  process_request py_repr net request self = (Returns response, self') ->
  handle_request py_repr net (Decoded request) self = (Some response, self').
Proof. intros H. unfold handle_request. rewrite H. reflexivity. Qed.

Lemma handle_of_raise (request : value) (e : exn) (self self' : ChordNode) :
  process_request py_repr net request self = (Raises e, self') ->
  handle_request py_repr net (Decoded request) self = (None, self').
Proof. intros H. unfold handle_request. rewrite H. reflexivity. Qed.

End Dispatch.

(** ** The store, through the dispatcher *)

(** X1. An [insert], [query] or [delete] request whose "key" is not a
    string (a number, a list, an object, true, false, null, or no key at
    all) makes the dispatcher raise at [key.encode()]: the connection
    gets no response and the node, its store included, is left as it
    was. *)
Theorem X1_key_not_a_string
    (py_repr : value -> string) (net : network) (d : gmap string value)
    (self : ChordNode) :
  field d "command" = VStr "insert" \/ field d "command" = VStr "query"
  \/ field d "command" = VStr "delete" ->
  (forall s, field d "key" <> VStr s) ->
  process_request py_repr net (VDict d) self = (Raises AttributeError, self)
  /\ handle_request py_repr net (Decoded (VDict d)) self = (None, self).
Proof.
  intros Hcmd Hkey.
  assert (Hp : process_request py_repr net (VDict d) self
               = (Raises AttributeError, self)).
  { destruct Hcmd as [Hc | [Hc | Hc]].
    - rewrite dispatch_insert by exact Hc. apply insert_not_str, Hkey.
    - rewrite dispatch_query by exact Hc. apply query_not_str, Hkey.
    - rewrite dispatch_delete by exact Hc. apply delete_not_str, Hkey. }
  split; [exact Hp |]. eapply handle_of_raise. exact Hp.
Qed.

Lemma X1_witness :
  let numbered := {[ "command" := VStr "delete";
                     "key" := VInt 7 ]} : gmap string value in
  (field numbered "command" = VStr "delete"
   /\ forall s, field numbered "key" <> VStr s)
  /\ handle_request no_containers refusing (Decoded (VDict numbered)) node_a
     = (None, node_a).
Proof.
  intros numbered.
  assert (Hkey : forall s, field numbered "key" <> VStr s)
    by (intros s; discriminate).
  split; [split; [reflexivity | exact Hkey] |].
  exact (proj2 (X1_key_not_a_string no_containers refusing numbered node_a
                  (or_intror (or_intror eq_refl)) Hkey)).
Defined.

(** X2. An [insert] request without a "value" field is not an error:
    for a key string that UTF-8 can encode it stores [None] under the
    key, answers "Inserted k -> None", and a [query] request for the key
    then answers success with value null. *)
Theorem X2_insert_without_value
    (py_repr : value -> string) (net net' : network) (k : string)
    (d q : gmap string value) (self : ChordNode) :
  encodable k = true ->
  d !! "command" = Some (VStr "insert") ->
  d !! "key" = Some (VStr k) ->
  d !! "value" = None ->
  q !! "command" = Some (VStr "query") ->
  q !! "key" = Some (VStr k) ->
  let stored := set_data_store <[key_id k := VNone]> self in
  handle_request py_repr net (Decoded (VDict d)) self
  = (Some (VDict {[ "status" := VStr "success";
                    "message" := VStr ("Inserted " +:+ k +:+ " -> None") ]}),
     stored)
  /\ handle_request py_repr net' (Decoded (VDict q)) stored
     = (Some (VDict {[ "status" := VStr "success"; "value" := VNone ]}),
        stored).
Proof.
  intros Hok Hc Hk Hv Hqc Hqk stored. split.
  - apply handle_of_process. rewrite dispatch_insert
      by (unfold field; rewrite Hc; reflexivity).
    unfold field. rewrite Hk, Hv. apply insert_str, Hok.
  - apply handle_of_process. rewrite dispatch_query
      by (unfold field; rewrite Hqc; reflexivity).
    replace (field q "key") with (VStr k)
      by (unfold field; rewrite Hqk; reflexivity).
    rewrite query_str by exact Hok.
    subst stored. cbn [set_data_store data_store].
    rewrite lookup_insert_eq. reflexivity.
Qed.

Lemma X2_witness :
  let d := {[ "command" := VStr "insert";
              "key" := VStr "song" ]} : gmap string value in
  let q := {[ "command" := VStr "query";
              "key" := VStr "song" ]} : gmap string value in
  (encodable "song" = true /\ d !! "value" = None)
  /\ fst (handle_request no_containers refusing (Decoded (VDict q))
            (snd (handle_request no_containers refusing (Decoded (VDict d))
                    node_a)))
     = Some (VDict {[ "status" := VStr "success"; "value" := VNone ]}).
Proof.
  intros d q. split; [split; reflexivity |].
  destruct (X2_insert_without_value no_containers refusing refusing "song"
              d q node_a eq_refl eq_refl eq_refl eq_refl eq_refl eq_refl)
    as [Hi Hq].
  rewrite Hi. cbn [snd]. rewrite Hq. reflexivity.
Defined.

(** X3. The last [insert] of a key wins: inserting [v1] and then [v2]
    under the same key string leaves the node exactly as a single
    insert of [v2] does, and, the key being one that UTF-8 can encode,
    [query] returns [v2]. *)
Theorem X3_last_insert_wins
    (py_repr : value -> string) (k : string) (v1 v2 : value)
    (self : ChordNode) :
  let once := snd (insert py_repr (VStr k) v2 self) in
  let twice :=
    snd (insert py_repr (VStr k) v2
           (snd (insert py_repr (VStr k) v1 self))) in
  twice = once
  /\ (encodable k = true ->
      query (VStr k) twice
      = (Returns (VDict {[ "status" := VStr "success"; "value" := v2 ]}),
         twice)).
Proof.
  intros once twice. subst once twice.
  destruct (encodable k) eqn:Hok.
  - rewrite !insert_str by exact Hok. cbn [snd].
    assert (E : set_data_store <[key_id k := v2]>
                  (set_data_store <[key_id k := v1]> self)
                = set_data_store <[key_id k := v2]> self).
    { unfold set_data_store. cbn [ip port node_id data_store predecessor
                                    successor].
      rewrite insert_insert_eq. reflexivity. }
    split; [exact E |]. intros _.
    rewrite E, query_str by exact Hok. cbn [set_data_store data_store].
    rewrite lookup_insert_eq. reflexivity.
  - erewrite !insert_raises by (apply hashed_key_surrogate; exact Hok).
    split; [reflexivity | discriminate].
Qed.

Lemma X3_witness :
  let twice :=
    snd (insert no_containers (VStr "song") (VStr "second")
           (snd (insert no_containers (VStr "song") (VStr "first")
                   node_a))) in
  encodable "song" = true
  /\ query (VStr "song") twice
     = (Returns (VDict {[ "status" := VStr "success";
                          "value" := VStr "second" ]}), twice).
Proof.
  intros twice. split; [reflexivity |].
  exact (proj2 (X3_last_insert_wins no_containers "song" (VStr "first")
                  (VStr "second") node_a) eq_refl).
Defined.

(** X4. Insert and delete undo each other on a key that was not
    stored: for a key string that UTF-8 can encode, [delete(k)] right
    after [insert(k, v)] answers success and leaves the node exactly as
    it was before the insert. *)
Theorem X4_insert_then_delete_restores
    (py_repr : value -> string) (k : string) (v : value)
    (self : ChordNode) :
  encodable k = true ->
  data_store self !! key_id k = None ->
  delete py_repr (VStr k) (snd (insert py_repr (VStr k) v self))
  = (Returns (VDict {[ "status" := VStr "success";
                       "message" := VStr ("Deleted " +:+ k) ]}), self).
Proof.
  intros Hok Hfresh. rewrite insert_str, delete_str by exact Hok.
  cbn [snd]. cbn [set_data_store data_store]. rewrite lookup_insert_eq.
  f_equal. destruct self as [i p n store pre suc].
  unfold set_data_store. cbn [ip port node_id data_store predecessor
                                successor] in *.
  rewrite delete_insert_eq, delete_id by exact Hfresh. reflexivity.
Qed.

Lemma X4_witness :
  (encodable "song" = true /\ data_store node_a !! key_id "song" = None)
  /\ delete no_containers (VStr "song")
       (snd (insert no_containers (VStr "song") (VStr "artist") node_a))
     = (Returns (VDict {[ "status" := VStr "success";
                          "message" := VStr "Deleted song" ]}), node_a).
Proof.
  split; [split; reflexivity |].
  exact (X4_insert_then_delete_restores no_containers "song" (VStr "artist")
           node_a eq_refl eq_refl).
Defined.

(** X5. Store operations on keys with different hashes do not see each
    other: two inserts commute, and an insert commutes with a delete. *)
Theorem X5_different_hashes_commute
    (py_repr : value -> string) (k1 k2 : string) (v1 v2 : value)
    (self : ChordNode) :
  key_id k1 <> key_id k2 ->
  snd (insert py_repr (VStr k1) v1 (snd (insert py_repr (VStr k2) v2 self)))
  = snd (insert py_repr (VStr k2) v2 (snd (insert py_repr (VStr k1) v1 self)))
  /\ snd (delete py_repr (VStr k1) (snd (insert py_repr (VStr k2) v2 self)))
     = snd (insert py_repr (VStr k2) v2 (snd (delete py_repr (VStr k1) self))).
Proof.
  intros Hne.
  destruct (encodable k2) eqn:H2;
    [| erewrite !(insert_raises py_repr (VStr k2))
         by (apply hashed_key_surrogate; exact H2);
       split; reflexivity].
  destruct (encodable k1) eqn:H1;
    [| erewrite !(insert_raises py_repr (VStr k1)),
         !(delete_raises py_repr (VStr k1))
         by (apply hashed_key_surrogate; exact H1);
       split; reflexivity].
  rewrite !insert_str by assumption. cbn [snd]. split.
  - unfold set_data_store. cbn [ip port node_id data_store predecessor
                                  successor].
    rewrite insert_insert_ne by exact Hne. reflexivity.
  - rewrite !delete_str by assumption. cbn [set_data_store data_store].
    rewrite lookup_insert_ne by congruence.
    destruct (data_store self !! key_id k1); cbn [snd]; [| reflexivity].
    unfold set_data_store. cbn [ip port node_id data_store predecessor
                                  successor].
    rewrite delete_insert_ne by exact Hne. reflexivity.
Qed.

Lemma X5_witness :
  key_id "song" <> key_id "another song"
  /\ snd (insert no_containers (VStr "song") (VInt 1)
            (snd (insert no_containers (VStr "another song") (VInt 2)
                    node_a)))
     = snd (insert no_containers (VStr "another song") (VInt 2)
              (snd (insert no_containers (VStr "song") (VInt 1) node_a))).
Proof.
  assert (Hne : key_id "song" <> key_id "another song")
    by (vm_compute; discriminate).
  split; [exact Hne |].
  exact (proj1 (X5_different_hashes_commute no_containers "song"
                  "another song" (VInt 1) (VInt 2) node_a Hne)).
Defined.

Section Provenance.

Variable py_repr : value -> string.

Lemma handle_request_state (net : network) (request : value)
    (self : ChordNode) :
  snd (handle_request py_repr net (Decoded request) self)
  = snd (process_request py_repr net request self).
Proof.
  unfold handle_request.
  destruct (process_request py_repr net request self) as [[r | e] self'];
    reflexivity.
Qed.

(** Where an entry found after one connection comes from. *)
Lemma handle_request_entry_origin (net : network) (rx : received)
    (self : ChordNode) (h : Z) (v : value) :
  data_store (snd (handle_request py_repr net rx self)) !! h = Some v ->
  data_store self !! h = Some v
  \/ exists d, rx = Decoded (VDict d)
               /\ field d "command" = VStr "insert"
               /\ hashed_key (field d "key") = Returns h
               /\ field d "value" = v.
Proof.
  destruct rx as [| | request]; try (intros H; left; exact H).
  rewrite handle_request_state.
  destruct request as [| | | | | | d];
    try (rewrite process_request_not_dict by (intros ? ?; discriminate);
         intros H; left; exact H).
  rewrite process_request_dict.
  destruct (eq_str (field d "command") "insert") eqn:Ei.
  { apply eq_str_true in Ei.
    destruct (key_cases (field d "key")) as [(s & Hs & Hok) | [e He]].
    - rewrite Hs, insert_str by exact Hok. cbn [snd set_data_store data_store].
      intros H. apply lookup_insert_Some in H.
      destruct H as [[<- <-] | [_ H]]; [right | left; exact H].
      exists d. rewrite Hs, hashed_key_returns by exact Hok.
      repeat split. exact Ei.
    - erewrite insert_raises by exact He. intros H. left. exact H. }
  destruct (eq_str (field d "command") "query").
  { rewrite query_unchanged. intros H. left. exact H. }
  destruct (eq_str (field d "command") "delete").
  { destruct (key_cases (field d "key")) as [(s & Hs & Hok) | [e He]].
    - rewrite Hs, delete_str by exact Hok.
      destruct (data_store self !! key_id s); cbn [snd];
        [| intros H; left; exact H].
      cbn [set_data_store data_store]. intros H.
      apply lookup_delete_Some in H. left. apply H.
    - erewrite delete_raises by exact He. intros H. left. exact H. }
  destruct (eq_str (field d "command") "find_successor").
  { rewrite find_successor_unchanged. intros H. left. exact H. }
  destruct (eq_str (field d "command") "update_predecessor");
    [| intros H; left; exact H].
  pose proof (announce_branch d self) as Hb. cbv zeta in Hb.
  destruct (d !! "ip"), (d !! "port"); rewrite Hb; intros H; left; exact H.
Qed.

End Provenance.

(** X6. The store never makes an entry up: whatever is found under a
    hashed key after any connections served was there before, or is the
    "value" of an [insert] request among them whose key has that
    hash. *)
Theorem X6_entries_come_from_inserts
    (py_repr : value -> string) (evs : list (network * received))
    (self : ChordNode) (h : Z) (v : value) :
  data_store (serve py_repr evs self) !! h = Some v ->
  data_store self !! h = Some v
  \/ exists net d,
       (net, Decoded (VDict d)) ∈ evs
       /\ field d "command" = VStr "insert"
       /\ hashed_key (field d "key") = Returns h
       /\ field d "value" = v.
Proof.
  revert self. induction evs as [| [net rx] evs IH]; intros self Hfound.
  - left. exact Hfound.
  - rewrite serve_cons in Hfound. cbn [fst snd] in Hfound.
    destruct (IH _ Hfound) as [Hstep | (net' & d & Hin & Hrest)].
    + destruct (handle_request_entry_origin py_repr net rx self h v Hstep)
        as [Hold | (d & -> & Hrest)].
      * left. exact Hold.
      * right. exists net, d. split; [apply list_elem_of_here | exact Hrest].
    + right. exists net', d.
      split; [apply list_elem_of_further; exact Hin | exact Hrest].
Qed.

Lemma X6_witness :
  let put := {[ "command" := VStr "insert"; "key" := VStr "song";
                "value" := VStr "artist" ]} : gmap string value in
  let evs := [(refusing, Decoded (VDict put)); (refusing, NoData)] in
  data_store (serve no_containers evs node_a) !! key_id "song"
  = Some (VStr "artist")
  /\ (data_store node_a !! key_id "song" = Some (VStr "artist")
      \/ exists net d,
           (net, Decoded (VDict d)) ∈ evs
           /\ field d "command" = VStr "insert"
           /\ hashed_key (field d "key") = Returns (key_id "song")
           /\ field d "value" = VStr "artist").
Proof.
  intros put evs.
  assert (Hfound : data_store (serve no_containers evs node_a)
                     !! key_id "song" = Some (VStr "artist"))
    by (vm_compute; reflexivity).
  split; [exact Hfound |].
  exact (X6_entries_come_from_inserts no_containers evs node_a
           (key_id "song") (VStr "artist") Hfound).
Defined.

(** ** The dispatcher *)

(** X7. The dispatcher reads six fields of a request and nothing else:
    two request objects that agree on "command", "key", "value",
    "node_id", "ip" and "port" get the same response and leave the same
    node, whatever else they carry. *)
Theorem X7_other_fields_ignored
    (py_repr : value -> string) (net : network) (d d' : gmap string value)
    (self : ChordNode) :
  (forall k : string,
      k ∈ ["command"; "key"; "value"; "node_id"; "ip"; "port"]%string ->
      d !! k = d' !! k) ->
  process_request py_repr net (VDict d) self
  = process_request py_repr net (VDict d') self
  /\ handle_request py_repr net (Decoded (VDict d)) self
     = handle_request py_repr net (Decoded (VDict d')) self.
Proof.
  intros Hsame.
  assert (Hp : process_request py_repr net (VDict d) self
               = process_request py_repr net (VDict d') self).
  { rewrite !process_request_dict. unfold field. cbn [subscript].
    rewrite (Hsame "command"), (Hsame "key"), (Hsame "value"),
      (Hsame "node_id"), (Hsame "ip"), (Hsame "port")
      by (repeat constructor).
    reflexivity. }
  split; [exact Hp |]. unfold handle_request. rewrite Hp. reflexivity.
Qed.

Lemma X7_witness :
  let d := {[ "command" := VStr "query";
              "key" := VStr "song" ]} : gmap string value in
  let d' := <["comment" := VStr "please"]> d in
  (forall k : string,
      k ∈ ["command"; "key"; "value"; "node_id"; "ip"; "port"]%string ->
      d !! k = d' !! k)
  /\ handle_request no_containers refusing (Decoded (VDict d)) node_a
     = handle_request no_containers refusing (Decoded (VDict d')) node_a.
Proof.
  intros d d'.
  assert (Hsame :
            forall k : string,
              k ∈ ["command"; "key"; "value"; "node_id"; "ip";
                   "port"]%string ->
              d !! k = d' !! k).
  { intros k Hk. unfold d'. rewrite lookup_insert_ne; [reflexivity |].
    intros <-. rewrite !elem_of_cons, elem_of_nil in Hk.
    intuition discriminate. }
  split; [exact Hsame |].
  exact (proj2 (X7_other_fields_ignored no_containers refusing d d' node_a
                  Hsame)).
Defined.

(** X8. A connection that carries no data, bytes that do not decode,
    or a JSON value that is not an object (a list, a string, a number,
    true, false, null) gets no response and leaves the node as it was;
    the connections served before and after it are not affected. *)
Theorem X8_unusable_connection_dropped
    (py_repr : value -> string) (net : network) (rx : received)
    (self : ChordNode) :
  rx = NoData \/ rx = Undecodable
  \/ (exists v, rx = Decoded v /\ forall d, v <> VDict d) ->
  handle_request py_repr net rx self = (None, self)
  /\ forall (before after : list (network * received)) (start : ChordNode),
       serve py_repr (before ++ (net, rx) :: after) start
       = serve py_repr (before ++ after) start.
Proof.
  intros Hrx.
  assert (Hdrop : forall s, handle_request py_repr net rx s = (None, s)).
  { intros s. destruct Hrx as [-> | [-> | (v & -> & Hv)]]; try reflexivity.
    eapply handle_of_raise. apply process_request_not_dict. exact Hv. }
  split; [apply Hdrop |].
  intros before after start. unfold serve.
  rewrite !fold_left_app. cbn [fold_left fst snd]. rewrite Hdrop.
  reflexivity.
Qed.

Lemma X8_witness :
  let put := Decoded (VDict {[ "command" := VStr "insert";
                               "key" := VStr "song";
                               "value" := VStr "artist" ]}) in
  (exists v, Decoded (VList [VInt 1]) = Decoded v /\ forall d, v <> VDict d)
  /\ serve no_containers
       [(refusing, put); (refusing, Decoded (VList [VInt 1]))] node_a
     = serve no_containers [(refusing, put)] node_a.
Proof.
  intros put.
  assert (Hrx : exists v, Decoded (VList [VInt 1]) = Decoded v
                          /\ forall d, v <> VDict d)
    by (eexists; split; [reflexivity | discriminate]).
  split; [exact Hrx |].
  exact (proj2 (X8_unusable_connection_dropped no_containers refusing
                  (Decoded (VList [VInt 1])) node_a
                  (or_intror (or_intror Hrx)))
           [(refusing, put)] [] node_a).
Defined.

(** X9. An [update_predecessor] request needs "ip" and "port" but not
    "node_id": with both present it succeeds whatever the three values
    are, and the predecessor becomes the descriptor built from them,
    with [None] as its id when the request has no "node_id". *)
Theorem X9_update_predecessor_unvalidated
    (py_repr : value -> string) (net : network) (d : gmap string value)
    (rip rport : value) (self : ChordNode) :
  d !! "command" = Some (VStr "update_predecessor") ->
  d !! "ip" = Some rip ->
  d !! "port" = Some rport ->
  handle_request py_repr net (Decoded (VDict d)) self
  = (Some (VDict {[ "status" := VStr "success";
                    "message" := VStr "Predecessor updated" ]}),
     set_predecessor (descriptor (field d "node_id") rip rport) self)
  /\ (d !! "node_id" = None ->
      predecessor (snd (handle_request py_repr net (Decoded (VDict d)) self))
      = VDict {[ "node_id" := VNone; "ip" := rip; "port" := rport ]}).
Proof.
  intros Hc Hip Hport.
  assert (Hh : handle_request py_repr net (Decoded (VDict d)) self
               = (Some (VDict {[ "status" := VStr "success";
                                 "message" := VStr "Predecessor updated" ]}),
                  set_predecessor (descriptor (field d "node_id") rip rport)
                    self)).
  { apply handle_of_process.
    rewrite (dispatch_update_predecessor py_repr net d rip rport)
      by (try assumption; unfold field; rewrite Hc; reflexivity).
    reflexivity. }
  split; [exact Hh |].
  intros Hnone. rewrite Hh. unfold field. rewrite Hnone. reflexivity.
Qed.

Lemma X9_witness :
  let d := {[ "command" := VStr "update_predecessor";
              "ip" := VList []; "port" := VStr "none" ]}
           : gmap string value in
  (d !! "command" = Some (VStr "update_predecessor")
   /\ d !! "ip" = Some (VList []) /\ d !! "port" = Some (VStr "none")
   /\ d !! "node_id" = None)
  /\ predecessor (snd (handle_request no_containers refusing
                         (Decoded (VDict d)) node_a))
     = VDict {[ "node_id" := VNone; "ip" := VList [];
                "port" := VStr "none" ]}.
Proof.
  intros d. split; [repeat split |].
  exact (proj2 (X9_update_predecessor_unvalidated no_containers refusing d
                  (VList []) (VStr "none") node_a eq_refl eq_refl eq_refl)
           eq_refl).
Defined.

Section Answers.

Variable py_repr : value -> string.
Variable net : network.

Lemma find_successor_ignores_predecessor (p target : value)
    (self : ChordNode) :
  fst (find_successor net target (set_predecessor p self))
  = fst (find_successor net target self).
Proof.
  unfold find_successor. step_py.
  cbn [successor node_id set_predecessor].
  destruct (successor self) as [succ |]; [| reflexivity].
  destruct (subscript succ "node_id") as [sid | e]; [| reflexivity].
  cbn [node_id set_predecessor].
  destruct (eq_int sid (node_id self)); [reflexivity |].
  destruct (as_number target) as [t |]; [| reflexivity].
  destruct (num_lt (Dyadic (node_id self) 0) t).
  - destruct (as_number sid) as [s |]; [| reflexivity].
    destruct (num_le t s); [reflexivity |].
    destruct (subscript succ "ip"); [| reflexivity].
    destruct (subscript succ "port"); reflexivity.
  - destruct (subscript succ "ip"); [| reflexivity].
    destruct (subscript succ "port"); reflexivity.
Qed.

(** The two ways [find_successor] returns. *)
Lemma find_successor_answer (target response : value)
    (self self' : ChordNode) :
  find_successor net target self = (Returns response, self') ->
  (exists succ,
      successor self = Some succ
      /\ response = VDict {[ "status" := VStr "success";
                             "successor" := succ ]})
  \/ (exists succ sip sport,
         successor self = Some succ
         /\ subscript succ "ip" = Returns sip
         /\ subscript succ "port" = Returns sport
         /\ response
            = send_request net sip sport
                (VDict {[ "command" := VStr "find_successor";
                          "node_id" := target ]})).
Proof.
  unfold find_successor. step_py.
  destruct (successor self) as [succ |]; [| discriminate].
  destruct (subscript succ "node_id") as [sid | e]; [| discriminate].
  assert (Hforward :
    match subscript succ "ip" with
    | Returns sip =>
        match subscript succ "port" with
        | Returns sport =>
            (Returns
               (send_request net sip sport
                  (VDict {[ "command" := VStr "find_successor";
                            "node_id" := target ]})), self)
        | Raises e => (Raises e, self)
        end
    | Raises e => (Raises e, self)
    end = (Returns response, self') ->
    exists succ0 sip sport,
      Some succ = Some succ0
      /\ subscript succ0 "ip" = Returns sip
      /\ subscript succ0 "port" = Returns sport
      /\ response
         = send_request net sip sport
             (VDict {[ "command" := VStr "find_successor";
                       "node_id" := target ]})).
  { destruct (subscript succ "ip") as [sip |] eqn:Eip; [| discriminate].
    destruct (subscript succ "port") as [sport |] eqn:Eport;
      [| discriminate].
    intros [= <- _]. exists succ, sip, sport. rewrite Eip, Eport.
    repeat split. }
  destruct (eq_int sid (node_id self)).
  { intros [= <- _]. left. exists succ. split; reflexivity. }
  destruct (as_number target) as [t |]; [| discriminate].
  destruct (num_lt (Dyadic (node_id self) 0) t).
  - destruct (as_number sid) as [s |]; [| discriminate].
    destruct (num_le t s).
    + intros [= <- _]. left. exists succ. split; reflexivity.
    + intros H. right. apply Hforward, H.
  - intros H. right. apply Hforward, H.
Qed.

End Answers.

(** X10. The predecessor is written and never read: the response to a
    request does not depend on what the node's predecessor is. *)
Theorem X10_predecessor_never_read
    (py_repr : value -> string) (net : network) (rx : received)
    (p : value) (self : ChordNode) :
  fst (handle_request py_repr net rx (set_predecessor p self))
  = fst (handle_request py_repr net rx self).
Proof.
  destruct rx as [| | request]; try reflexivity.
  assert (Hp : fst (process_request py_repr net request
                      (set_predecessor p self))
               = fst (process_request py_repr net request self)).
  { destruct request as [| | | | | | d];
      try (rewrite !process_request_not_dict by (intros ? ?; discriminate);
           reflexivity).
    rewrite !process_request_dict.
    destruct (eq_str (field d "command") "insert").
    { destruct (key_cases (field d "key")) as [(s & -> & Hok) | [e He]].
      - rewrite !insert_str by exact Hok. reflexivity.
      - erewrite !insert_raises by exact He. reflexivity. }
    destruct (eq_str (field d "command") "query").
    { destruct (key_cases (field d "key")) as [(s & -> & Hok) | [e He]].
      - rewrite !query_str by exact Hok. reflexivity.
      - erewrite !query_raises by exact He. reflexivity. }
    destruct (eq_str (field d "command") "delete").
    { destruct (key_cases (field d "key")) as [(s & -> & Hok) | [e He]].
      - rewrite !delete_str by exact Hok. cbn [set_predecessor data_store].
        destruct (data_store self !! key_id s); reflexivity.
      - erewrite !delete_raises by exact He. reflexivity. }
    destruct (eq_str (field d "command") "find_successor").
    { apply find_successor_ignores_predecessor. }
    destruct (eq_str (field d "command") "update_predecessor");
      [| reflexivity].
    pose proof (announce_branch d self) as Hb.
    pose proof (announce_branch d (set_predecessor p self)) as Hb'.
    cbv zeta in Hb, Hb'.
    destruct (d !! "ip"), (d !! "port"); rewrite Hb, Hb'; reflexivity. }
  unfold handle_request.
  destruct (process_request py_repr net request (set_predecessor p self))
    as [[r | e] s1];
    destruct (process_request py_repr net request self) as [[r' | e'] s2];
    cbn [fst] in *; congruence.
Qed.

(** X11. Every response the node writes of its own is an object whose
    "status" is "success" or "error"; the only other responses are
    those [find_successor] brings back from the successor's address for
    the forwarded request, which it passes on as they are. *)
Theorem X11_responses_carry_status
    (py_repr : value -> string) (net : network) (request response : value)
    (self self' : ChordNode) :
  process_request py_repr net request self = (Returns response, self') ->
  (exists r, response = VDict r
             /\ (r !! "status" = Some (VStr "success")
                 \/ r !! "status" = Some (VStr "error")))
  \/ (exists d succ sip sport,
         request = VDict d
         /\ field d "command" = VStr "find_successor"
         /\ successor self = Some succ
         /\ subscript succ "ip" = Returns sip
         /\ subscript succ "port" = Returns sport
         /\ response
            = send_request net sip sport
                (VDict {[ "command" := VStr "find_successor";
                          "node_id" := field d "node_id" ]})).
Proof.
  destruct request as [| | | | | | d];
    try (rewrite process_request_not_dict by (intros ? ?; discriminate);
         discriminate).
  rewrite process_request_dict.
  destruct (eq_str (field d "command") "insert").
  { destruct (key_cases (field d "key")) as [(s & -> & Hok) | [e He]].
    - rewrite insert_str by exact Hok. intros [= <- _]. left. eexists.
      split; [reflexivity |]. left. apply lookup_insert_eq.
    - erewrite insert_raises by exact He. discriminate. }
  destruct (eq_str (field d "command") "query").
  { destruct (key_cases (field d "key")) as [(s & -> & Hok) | [e He]].
    - rewrite query_str by exact Hok. intros [= <- _]. left.
      destruct (data_store self !! key_id s); eexists;
        (split; [reflexivity |]);
        [left | right]; apply lookup_insert_eq.
    - erewrite query_raises by exact He. discriminate. }
  destruct (eq_str (field d "command") "delete").
  { destruct (key_cases (field d "key")) as [(s & -> & Hok) | [e He]].
    - rewrite delete_str by exact Hok.
      destruct (data_store self !! key_id s); intros [= <- _]; left;
        eexists; (split; [reflexivity |]);
        [left | right]; apply lookup_insert_eq.
    - erewrite delete_raises by exact He. discriminate. }
  destruct (eq_str (field d "command") "find_successor") eqn:Ef.
  { apply eq_str_true in Ef. intros H.
    destruct (find_successor_answer net _ _ _ _ H)
      as [(succ & Hs & ->) | (succ & sip & sport & Hs & Hip & Hport & ->)].
    - left. eexists. split; [reflexivity |]. left. apply lookup_insert_eq.
    - right. exists d, succ, sip, sport. repeat split; assumption. }
  destruct (eq_str (field d "command") "update_predecessor").
  { pose proof (announce_branch d self) as Hb. cbv zeta in Hb.
    destruct (d !! "ip"), (d !! "port"); rewrite Hb; try discriminate.
    intros [= <- _]. left. eexists. split; [reflexivity |]. left.
    apply lookup_insert_eq. }
  intros [= <- _]. left. eexists. split; [reflexivity |]. right.
  apply lookup_insert_eq.
Qed.

Lemma X11_witness :
  let q := VDict {[ "command" := VStr "query"; "key" := VStr "song" ]} in
  let answer := VDict {[ "status" := VStr "error";
                         "message" := VStr "Key not found" ]} in
  process_request no_containers refusing q node_a = (Returns answer, node_a)
  /\ exists r, answer = VDict r
               /\ (r !! "status" = Some (VStr "success")
                   \/ r !! "status" = Some (VStr "error")).
Proof.
  intros q answer.
  assert (Hrun : process_request no_containers refusing q node_a
                 = (Returns answer, node_a)) by (vm_compute; reflexivity).
  split; [exact Hrun |].
  destruct (X11_responses_carry_status no_containers refusing q answer
              node_a node_a Hrun)
    as [Hown | (d & succ & sip & sport & Hreq & Hcmd & _)].
  - exact Hown.
  - exfalso. injection Hreq as <-. discriminate Hcmd.
Defined.

(** ** Routing *)

Section Unroutable.

Variable py_repr : value -> string.

Lemma find_successor_unroutable (net : network) (target : value)
    (self : ChordNode) :
  no_successor_id self ->
  exists e, find_successor net target self = (Raises e, self).
Proof.
  intros [Hnone | (s & e & Hs & He)]; unfold find_successor; step_py.
  - rewrite Hnone. eexists. reflexivity.
  - rewrite Hs, He. eexists. reflexivity.
Qed.

Lemma no_successor_id_kept (evs : list (network * received))
    (self : ChordNode) :
  no_successor_id self -> no_successor_id (serve py_repr evs self).
Proof.
  intros H. destruct (serve_ring py_repr evs self) as (_ & _ & _ & Hs).
  unfold no_successor_id. rewrite Hs. exact H.
Qed.

Lemma unroutable_forever (evs : list (network * received))
    (net : network) (d : gmap string value) (self : ChordNode) :
  no_successor_id self ->
  field d "command" = VStr "find_successor" ->
  handle_request py_repr net (Decoded (VDict d)) (serve py_repr evs self)
  = (None, serve py_repr evs self).
Proof.
  intros Hno Hc.
  destruct (find_successor_unroutable net (field d "node_id")
              (serve py_repr evs self) (no_successor_id_kept evs self Hno))
    as [e He].
  eapply handle_of_raise. rewrite dispatch_find_successor by exact Hc.
  exact He.
Qed.

End Unroutable.

(** X12. On a node whose successor is another node, a [find_successor]
    request whose "node_id" is not a number (a string, a list, an
    object, null, or no "node_id" at all) raises at the interval test:
    the connection gets no response and the node is left as it was. *)
Theorem X12_target_not_a_number
    (py_repr : value -> string) (net : network) (d : gmap string value)
    (succ sid : value) (self : ChordNode) :
  field d "command" = VStr "find_successor" ->
  successor self = Some succ ->
  subscript succ "node_id" = Returns sid ->
  eq_int sid (node_id self) = false ->
  as_number (field d "node_id") = None ->
  process_request py_repr net (VDict d) self = (Raises TypeError, self)
  /\ handle_request py_repr net (Decoded (VDict d)) self = (None, self).
Proof.
  intros Hc Hs Hid Hne Hnan.
  assert (Hp : process_request py_repr net (VDict d) self
               = (Raises TypeError, self)).
  { rewrite dispatch_find_successor by exact Hc.
    unfold find_successor. step_py. rewrite Hs, Hid, Hne, Hnan.
    reflexivity. }
  split; [exact Hp |]. eapply handle_of_raise. exact Hp.
Qed.

Lemma X12_witness :
  let d := {[ "command" := VStr "find_successor" ]} : gmap string value in
  (field d "command" = VStr "find_successor"
   /\ successor node_b = Some descriptor_a
   /\ subscript descriptor_a "node_id" = Returns (VInt id_a)
   /\ eq_int (VInt id_a) (node_id node_b) = false
   /\ as_number (field d "node_id") = None)
  /\ handle_request no_containers refusing (Decoded (VDict d)) node_b
     = (None, node_b).
Proof.
  intros d. split; [repeat split |].
  exact (proj2 (X12_target_not_a_number no_containers refusing d
                  descriptor_a (VInt id_a) node_b
                  eq_refl eq_refl eq_refl eq_refl eq_refl)).
Defined.

(** X13. A node whose bootstrap peer could not be reached never routes:
    it is constructed without a successor, no request ever gives it
    one, and every [find_successor] request it receives from then on is
    closed without a response. *)
Theorem X13_failed_join_never_routes
    (py_repr : value -> string) (net : network) (ip : string) (port : Z)
    (bootstrap_ip bootstrap_port : value) :
  truthy bootstrap_ip && truthy bootstrap_port = true ->
  (forall request,
      exists message, net bootstrap_ip bootstrap_port request = inl message) ->
  exists self,
    init net ip port bootstrap_ip bootstrap_port = Returns self
    /\ forall (evs : list (network * received)),
         successor (serve py_repr evs self) = None
         /\ forall (net' : network) (d : gmap string value),
              field d "command" = VStr "find_successor" ->
              handle_request py_repr net' (Decoded (VDict d))
                (serve py_repr evs self)
              = (None, serve py_repr evs self).
Proof.
  intros Hb Hdown. eexists. split; [apply init_joining; exact Hb |].
  match goal with
  | |- context [learned_successor (send_request net ?a ?b ?r)] =>
      destruct (Hdown r) as [message Hm];
      replace (learned_successor (send_request net a b r)) with (@None value)
        by (unfold send_request; rewrite Hm; reflexivity)
  end.
  intros evs. split.
  - destruct (serve_ring py_repr evs
                {| ip := ip; port := port;
                   node_id := key_id (ip +:+ ":" +:+ str_of_int port);
                   data_store := ∅; predecessor := VNone;
                   successor := None |}) as (_ & _ & _ & Hs).
    exact Hs.
  - intros net' d Hc. apply unroutable_forever; [left; reflexivity | exact Hc].
Qed.

Lemma X13_witness :
  let lookup := {[ "command" := VStr "find_successor";
                   "node_id" := VInt 15 ]} : gmap string value in
  (truthy (VStr "127.0.0.1") && truthy (VInt 5000) = true
   /\ forall request,
        exists message,
          refusing (VStr "127.0.0.1") (VInt 5000) request = inl message)
  /\ exists self,
       init refusing "127.0.0.1" 5001 (VStr "127.0.0.1") (VInt 5000)
       = Returns self
       /\ handle_request no_containers refusing (Decoded (VDict lookup)) self
          = (None, self).
Proof.
  intros lookup.
  assert (Hdown : forall request,
             exists message,
               refusing (VStr "127.0.0.1") (VInt 5000) request = inl message)
    by (intros request; eexists; reflexivity).
  split; [split; [reflexivity | exact Hdown] |].
  destruct (X13_failed_join_never_routes no_containers refusing "127.0.0.1"
              5001 (VStr "127.0.0.1") (VInt 5000) eq_refl Hdown)
    as (self & Hinit & Hlife).
  exists self. split; [exact Hinit |].
  exact (proj2 (Hlife []) refusing lookup eq_refl).
Defined.

(** X14. [join] takes whatever a success response carries under
    "successor": when that value is not an object with a "node_id" (it
    is null, a string, a list, or an object without that field), the
    node keeps it as its successor all the same, and every
    [find_successor] request it receives from then on is closed without
    a response. *)
Theorem X14_successor_not_validated
    (py_repr : value -> string) (net : network) (ip : string) (port : Z)
    (bootstrap_ip bootstrap_port : value) (r : gmap string value)
    (s : value) (e : exn) :
  truthy bootstrap_ip && truthy bootstrap_port = true ->
  (forall request, net bootstrap_ip bootstrap_port request = inr (VDict r)) ->
  r !! "status" = Some (VStr "success") ->
  r !! "successor" = Some s ->
  subscript s "node_id" = Raises e ->
  exists self,
    init net ip port bootstrap_ip bootstrap_port = Returns self
    /\ successor self = Some s
    /\ forall (evs : list (network * received)) (net' : network)
              (d : gmap string value),
         field d "command" = VStr "find_successor" ->
         handle_request py_repr net' (Decoded (VDict d))
           (serve py_repr evs self)
         = (None, serve py_repr evs self).
Proof.
  intros Hb Hnet Hst Hsu Hbad. eexists.
  split; [apply init_joining; exact Hb |].
  match goal with
  | |- context [learned_successor (send_request net ?a ?b ?q)] =>
      replace (learned_successor (send_request net a b q)) with (Some s)
        by (unfold send_request; rewrite Hnet; cbn [learned_successor];
            rewrite Hst; cbn [eq_str String.eqb]; rewrite Hsu; reflexivity)
  end.
  split; [reflexivity |].
  intros evs net' d Hc. apply unroutable_forever; [| exact Hc].
  right. exists s, e. split; [reflexivity | exact Hbad].
Qed.

Lemma X14_witness :
  let r := {[ "status" := VStr "success";
              "successor" := VNone ]} : gmap string value in
  let lookup := {[ "command" := VStr "find_successor";
                   "node_id" := VInt 15 ]} : gmap string value in
  (r !! "status" = Some (VStr "success") /\ r !! "successor" = Some VNone
   /\ subscript VNone "node_id" = Raises TypeError)
  /\ exists self,
       init (answering (VDict r)) "127.0.0.1" 5001 (VStr "127.0.0.1")
         (VInt 5000) = Returns self
       /\ successor self = Some VNone
       /\ handle_request no_containers refusing (Decoded (VDict lookup)) self
          = (None, self).
Proof.
  intros r lookup. split; [repeat split |].
  destruct (X14_successor_not_validated no_containers (answering (VDict r))
              "127.0.0.1" 5001 (VStr "127.0.0.1") (VInt 5000) r VNone
              TypeError eq_refl (fun _ => eq_refl) eq_refl eq_refl eq_refl)
    as (self & Hinit & Hsucc & Hlife).
  exists self. split; [exact Hinit |]. split; [exact Hsucc |].
  exact (Hlife [] refusing lookup eq_refl).
Defined.

(** X15. A successor that cannot be reached does not cost the
    requester its answer: when a lookup has to be forwarded and the
    round trip to the successor fails, [send_request] turns the failure
    into an error object, and that object is what the requester
    receives, with the text of the failure as its message. *)
Theorem X15_unreachable_successor_reported
    (py_repr : value -> string) (net : network) (d sd : gmap string value)
    (sid target : Z) (sip sport : value) (message : string)
    (self : ChordNode) :
  field d "command" = VStr "find_successor" ->
  field d "node_id" = VInt target ->
  successor self = Some (VDict sd) ->
  sd !! "node_id" = Some (VInt sid) ->
  sid <> node_id self ->
  sd !! "ip" = Some sip ->
  sd !! "port" = Some sport ->
  ~ (node_id self < target <= sid) ->
  net sip sport (VDict {[ "command" := VStr "find_successor";
                          "node_id" := VInt target ]}) = inl message ->
  handle_request py_repr net (Decoded (VDict d)) self
  = (Some (VDict {[ "status" := VStr "error";
                    "message" := VStr message ]}), self).
Proof.
  intros Hc Ht Hs Hid Hne Hip Hport Hout Hfail.
  apply handle_of_process.
  rewrite dispatch_find_successor by exact Hc. rewrite Ht.
  rewrite (find_successor_forward net target sid sd sip sport self)
    by assumption.
  unfold send_request. rewrite Hfail. reflexivity.
Qed.

Lemma X15_witness :
  let d := {[ "command" := VStr "find_successor";
              "node_id" := VInt 15 ]} : gmap string value in
  (successor node_b = Some descriptor_a
   /\ id_a <> node_id node_b
   /\ ~ (node_id node_b < 15 <= id_a))
  /\ handle_request no_containers refusing (Decoded (VDict d)) node_b
     = (Some (VDict {[ "status" := VStr "error";
                       "message" :=
                         VStr "[Errno 111] Connection refused" ]}), node_b).
Proof.
  intros d.
  assert (Hne : id_a <> node_id node_b) by (vm_compute; discriminate).
  assert (Hout : ~ (node_id node_b < 15 <= id_a))
    by (intros [Hlt _]; vm_compute in Hlt; discriminate Hlt).
  split; [split; [reflexivity | split; assumption] |].
  exact (X15_unreachable_successor_reported no_containers refusing d _ id_a
           15 (VStr "127.0.0.1") (VInt 5000) _ node_b
           eq_refl eq_refl eq_refl eq_refl Hne eq_refl eq_refl Hout eq_refl).
Defined.

(** ** A ring that stays a star *)

Section Star.

Variable py_repr : value -> string.

(** A node whose successor is itself answers every lookup that reaches
    it with its own descriptor. *)
Lemma hub_answers (net : network) (hub : ChordNode)
    (d : gmap string value) :
  successor hub = Some (self_descriptor hub) ->
  field d "command" = VStr "find_successor" ->
  served_by py_repr net hub (VDict d)
  = inr (VDict {[ "status" := VStr "success";
                  "successor" := self_descriptor hub ]}).
Proof.
  intros Hs Hc. unfold served_by.
  erewrite handle_of_process; [reflexivity |].
  rewrite dispatch_find_successor by exact Hc.
  apply find_successor_self with (sid := VInt (node_id hub)).
  - exact Hs.
  - reflexivity.
  - cbn [eq_int as_number]. rewrite num_eq_int. apply Z.eqb_refl.
Qed.

(** A node whose successor is such a hub answers every integer lookup
    with the hub's descriptor, by itself or after one hop. *)
Lemma star_lookup (net net_hub : network) (hub member : ChordNode)
    (target : Z) :
  successor hub = Some (self_descriptor hub) ->
  successor member = Some (self_descriptor hub) ->
  (forall request,
      net (VStr (ip hub)) (VInt (port hub)) request
      = served_by py_repr net_hub hub request) ->
  find_successor net (VInt target) member
  = (Returns (VDict {[ "status" := VStr "success";
                       "successor" := self_descriptor hub ]}), member).
Proof.
  intros Hhub Hmember Hrelay.
  destruct (Z.eq_dec (node_id hub) (node_id member)) as [Esame | Hne].
  - apply find_successor_self with (sid := VInt (node_id hub)).
    + exact Hmember.
    + reflexivity.
    + cbn [eq_int as_number]. rewrite num_eq_int, Esame. apply Z.eqb_refl.
  - destruct (Z_lt_dec (node_id member) target) as [Hlt | Hnlt];
      [destruct (Z_le_dec target (node_id hub)) as [Hle | Hnle] |].
    + eapply find_successor_inside with (sid := node_id hub);
        [exact Hmember | reflexivity | exact Hne | split; assumption].
    + erewrite find_successor_forward with (sid := node_id hub);
        [| exact Hmember | reflexivity | exact Hne | reflexivity
         | reflexivity | lia].
      unfold send_request. rewrite Hrelay, hub_answers;
        [reflexivity | exact Hhub | reflexivity].
    + erewrite find_successor_forward with (sid := node_id hub);
        [| exact Hmember | reflexivity | exact Hne | reflexivity
         | reflexivity | lia].
      unfold send_request. rewrite Hrelay, hub_answers;
        [reflexivity | exact Hhub | reflexivity].
Qed.

End Star.

(** X16. In a star, every lookup ends at the hub. Let the hub be a node
    whose successor is itself, and take any node whose successor is the
    hub and whose requests to the hub's address are handled by the hub.
    Then [find_successor] at that node answers every integer target
    with the hub's descriptor: at once when the target is in its
    interval, after one forward otherwise. *)
Theorem X16_star_lookup_ends_at_hub
    (py_repr : value -> string) (net net_hub : network)
    (hub member : ChordNode) (target : Z) :
  successor hub = Some (self_descriptor hub) ->
  successor member = Some (self_descriptor hub) ->
  (forall request,
      net (VStr (ip hub)) (VInt (port hub)) request
      = served_by py_repr net_hub hub request) ->
  find_successor net (VInt target) member
  = (Returns (VDict {[ "status" := VStr "success";
                       "successor" := self_descriptor hub ]}), member).
Proof. apply star_lookup. Qed.

Lemma X16_witness :
  let wire : network :=
    fun ip port request =>
      served_by no_containers refusing node_a request in
  (successor node_a = Some (self_descriptor node_a)
   /\ successor node_b = Some (self_descriptor node_a)
   /\ forall request,
        wire (VStr (ip node_a)) (VInt (port node_a)) request
        = served_by no_containers refusing node_a request)
  /\ find_successor wire (VInt 15) node_b
     = (Returns (VDict {[ "status" := VStr "success";
                          "successor" := self_descriptor node_a ]}),
        node_b).
Proof.
  intros wire.
  split; [split; [reflexivity | split; [reflexivity | reflexivity]] |].
  exact (X16_star_lookup_ends_at_hub no_containers wire refusing node_a
           node_b 15 eq_refl eq_refl (fun _ => eq_refl)).
Defined.

(** X17. A star stays a star: a node that joins through any node of a
    star (the hub itself, or a node whose successor is the hub and
    which reaches the hub) comes out of its constructor with the hub as
    its successor. Nothing a node receives later changes its successor,
    so successors point at the first node for good. *)
Theorem X17_join_through_star
    (py_repr : value -> string) (net net_member net_hub : network)
    (hub member : ChordNode) (own_ip : string) (own_port : Z)
    (bootstrap_ip bootstrap_port : value) :
  successor hub = Some (self_descriptor hub) ->
  successor member = Some (self_descriptor hub) ->
  (forall request,
      net_member (VStr (ip hub)) (VInt (port hub)) request
      = served_by py_repr net_hub hub request) ->
  truthy bootstrap_ip && truthy bootstrap_port = true ->
  (forall request,
      net bootstrap_ip bootstrap_port request
      = served_by py_repr net_member member request) ->
  exists self,
    init net own_ip own_port bootstrap_ip bootstrap_port = Returns self
    /\ successor self = Some (self_descriptor hub)
    /\ forall evs,
         successor (serve py_repr evs self) = Some (self_descriptor hub).
Proof.
  intros Hhub Hmember Hrelay Hb Hpeer. eexists.
  split; [apply init_joining; exact Hb |].
  match goal with
  | |- context [learned_successor (send_request net ?a ?b ?q)] =>
      assert (Hlearn : learned_successor (send_request net a b q)
                       = Some (self_descriptor hub))
  end.
  { unfold send_request. rewrite Hpeer. unfold served_by, join_request.
    erewrite handle_of_process;
      [| rewrite dispatch_find_successor by reflexivity;
         eapply star_lookup; eassumption].
    reflexivity. }
  rewrite Hlearn. split; [reflexivity |].
  intros evs.
  match goal with
  | |- successor (serve py_repr evs ?s) = _ =>
      destruct (serve_ring py_repr evs s) as (_ & _ & _ & Hs)
  end.
  exact Hs.
Qed.

Lemma X17_witness :
  let to_a : network :=
    fun ip port request =>
      served_by no_containers refusing node_a request in
  let to_b : network :=
    fun ip port request => served_by no_containers to_a node_b request in
  (successor node_a = Some (self_descriptor node_a)
   /\ successor node_b = Some (self_descriptor node_a)
   /\ truthy (VStr "127.0.0.1") && truthy (VInt 5001) = true)
  /\ exists self,
       init to_b "127.0.0.1" 5002 (VStr "127.0.0.1") (VInt 5001)
       = Returns self
       /\ successor self = Some (self_descriptor node_a).
Proof.
  intros to_a to_b. split; [repeat split |].
  destruct (X17_join_through_star no_containers to_b to_a refusing
              node_a node_b "127.0.0.1" 5002 (VStr "127.0.0.1") (VInt 5001)
              eq_refl eq_refl (fun _ => eq_refl) eq_refl (fun _ => eq_refl))
    as (self & Hinit & Hsucc & _).
  exists self. split; assumption.
Defined.

(** ** Joining *)

(** X18. When [join] learns a successor that is an object with "ip"
    and "port", it sends exactly two requests: the lookup to the
    bootstrap address, then an announcement to the successor's address.
    Whatever node handles the announcement answers success and has the
    joining node's descriptor as its predecessor afterwards, in place of
    any earlier one. *)
Theorem X18_join_announces_to_successor
    (net : network) (bootstrap_ip bootstrap_port : value)
    (self : ChordNode) (sd : gmap string value) (sip sport : value) :
  learned_successor
    (send_request net bootstrap_ip bootstrap_port (join_request self))
  = Some (VDict sd) ->
  sd !! "ip" = Some sip ->
  sd !! "port" = Some sport ->
  exists announcement,
    join_sends net bootstrap_ip bootstrap_port self
    = [(bootstrap_ip, bootstrap_port, join_request self);
       (sip, sport, announcement)]
    /\ successor (snd (join net bootstrap_ip bootstrap_port self))
       = Some (VDict sd)
    /\ forall (py_repr : value -> string) (net' : network)
              (peer : ChordNode),
         handle_request py_repr net' (Decoded announcement) peer
         = (Some (VDict {[ "status" := VStr "success";
                           "message" := VStr "Predecessor updated" ]}),
            set_predecessor (self_descriptor self) peer).
Proof.
  intros Hlearn Hip Hport. eexists. split; [| split].
  - unfold join_sends. fold (join_request self).
    unfold learned_successor in Hlearn.
    destruct (send_request net bootstrap_ip bootstrap_port
                (join_request self)) as [| | | | | | r];
      try discriminate Hlearn.
    cbn [subscript].
    destruct (r !! "status") as [status |]; [| discriminate Hlearn].
    destruct (eq_str status "success"); [| discriminate Hlearn].
    rewrite Hlearn. cbn [subscript]. rewrite Hip, Hport. reflexivity.
  - rewrite join_successor, Hlearn. reflexivity.
  - intros py_repr net' peer. apply handle_of_process.
    rewrite (dispatch_update_predecessor py_repr net' _
               (VStr (ip self)) (VInt (port self)))
      by reflexivity.
    reflexivity.
Qed.

Lemma X18_witness :
  let to_a : network :=
    fun ip port request =>
      served_by no_containers refusing node_a request in
  let fresh_b :=
    {| ip := "127.0.0.1"; port := 5001; node_id := id_b; data_store := ∅;
       predecessor := VNone; successor := None |} in
  learned_successor
    (send_request to_a (VStr "127.0.0.1") (VInt 5000) (join_request fresh_b))
  = Some descriptor_a
  /\ exists announcement,
       join_sends to_a (VStr "127.0.0.1") (VInt 5000) fresh_b
       = [(VStr "127.0.0.1", VInt 5000, join_request fresh_b);
          (VStr "127.0.0.1", VInt 5000, announcement)]
       /\ predecessor
            (snd (handle_request no_containers refusing
                    (Decoded announcement) node_a))
          = self_descriptor fresh_b.
Proof.
  intros to_a fresh_b.
  assert (Hlearn : learned_successor
                     (send_request to_a (VStr "127.0.0.1") (VInt 5000)
                        (join_request fresh_b))
                   = Some descriptor_a) by (vm_compute; reflexivity).
  split; [exact Hlearn |].
  destruct (X18_join_announces_to_successor to_a (VStr "127.0.0.1")
              (VInt 5000) fresh_b _ (VStr "127.0.0.1") (VInt 5000)
              Hlearn eq_refl eq_refl)
    as (announcement & Hsends & _ & Hhandled).
  exists announcement. split; [exact Hsends |].
  rewrite (Hhandled no_containers refusing node_a). reflexivity.
Defined.

(** X19. A bootstrap address with an empty host or with port 0 counts
    as no bootstrap address: the constructor then never touches the
    network and builds the same single-node ring as without the two
    arguments. *)
Theorem X19_falsy_bootstrap_starts_a_ring
    (net net' : network) (own_ip : string) (own_port : Z)
    (bootstrap_ip bootstrap_port : value) :
  truthy bootstrap_ip && truthy bootstrap_port = false ->
  init net own_ip own_port bootstrap_ip bootstrap_port
  = init net' own_ip own_port VNone VNone.
Proof.
  intros Hfalsy. rewrite (init_bootstrap net _ _ _ _ Hfalsy).
  rewrite (init_bootstrap net' own_ip own_port VNone VNone eq_refl).
  reflexivity.
Qed.

Lemma X19_witness :
  (truthy (VStr "127.0.0.1") && truthy (VInt 0) = false
   /\ truthy (VStr "") && truthy (VInt 5000) = false)
  /\ init (answering (VDict {[ "status" := VStr "success";
                               "successor" := descriptor_a ]}))
       "127.0.0.1" 5000 (VStr "127.0.0.1") (VInt 0)
     = Returns node_a
  /\ init refusing "127.0.0.1" 5000 (VStr "") (VInt 5000) = Returns node_a.
Proof.
  split; [split; reflexivity |]. split.
  - rewrite (X19_falsy_bootstrap_starts_a_ring _ refusing "127.0.0.1" 5000
               (VStr "127.0.0.1") (VInt 0) eq_refl).
    vm_compute. reflexivity.
  - rewrite (X19_falsy_bootstrap_starts_a_ring refusing refusing "127.0.0.1"
               5000 (VStr "") (VInt 5000) eq_refl).
    vm_compute. reflexivity.
Defined.



(** ** A node's whole life *)

(** X21. No request changes who a node is or where it points: after any
    sequence of connections the node has the address, the id and the
    successor (or the lack of one) it was constructed with. *)
Theorem X21_successor_fixed_for_life
    (py_repr : value -> string) (evs : list (network * received))
    (self : ChordNode) :
  ip (serve py_repr evs self) = ip self
  /\ port (serve py_repr evs self) = port self
  /\ node_id (serve py_repr evs self) = node_id self
  /\ successor (serve py_repr evs self) = successor self.
Proof. apply serve_ring. Qed.

(** ** The entry point *)


